(** * serverstat-hub: the CS 1.6 server status fetcher

    A shallow embedding of [backend/cs_server_fetcher.py] and the
    properties of it that the specification relies on.

    The module talks to its environment through four calls:
    [socket.gethostbyname], [time.time], [a2s.info] and [a2s.players].
    They are kept as events of a small free monad, so that a statement
    about a method covers every way the environment can answer, and so
    that "which calls were made, in which order, with which arguments"
    is something a theorem can talk about.

    Modelling choices
    - Python values that reach [host] and [port] are dynamically typed;
      they are values of [pyval]. An object that is neither an [int] nor
      a [str] is taken to be one whose [bool()] and [str()] return.
    - Python floats are IEEE binary64 numbers: [spec_float] with
      precision 53 and maximal exponent 1024.
    - An exception object is its class, as far as the [except] clauses of
      the module can tell classes apart, and its message [str(e)].
      Only instances of [Exception] are modelled: these are the errors a
      library call raises.
    - A result dictionary is a record whose optional fields say which keys
      are present.
    - The batch result is a [gmap] from the key string to the result.
    - Calls to [logger] write diagnostics only and return [None]; the
      call is left out, but its argument is evaluated: an f-string whose
      field cannot be printed raises where the source builds it.
    - [str()] of an [int] of more than 4300 decimal digits raises
      [ValueError] (the interpreter's limit on integer string conversion,
      at its default); every f-string that prints a host or a port is
      modelled with that. *)

From Stdlib Require Import ZArith String Ascii List Lia DecimalString.
From Stdlib Require Import Floats.SpecFloat.
From Stdlib Require Import DecimalZ DecimalPos.
From stdpp Require Import gmap strings.

Open Scope Z_scope.

(** ** Python floats *)

Module PyFloat.

Definition float := spec_float.

Definition prec : Z := 53.
Definition emax : Z := 1024.

(** [float(z)] for an integer literal. *)
Definition of_Z (z : Z) : float := binary_normalize prec emax z 0 false.

(** The literals the module uses. *)
Definition half : float := binary_normalize prec emax 1 (-1) false. (* 0.5 *)
Definition three : float := of_Z 3.                                (* 3.0 *)
Definition thousand : float := of_Z 1000.                          (* 1000 *)

Definition sub : float -> float -> float := SFsub prec emax.
Definition mul : float -> float -> float := SFmul prec emax.
Definition ltb : float -> float -> bool := SFltb.
Definition leb : float -> float -> bool := SFleb.

Definition is_nan (x : float) : bool :=
  match x with S754_nan => true | _ => false end.

(** The built-in [max(a, b)]: the first argument is kept unless the
    second compares strictly greater. *)
Definition max (a b : float) : float := if ltb a b then b else a.

(** Nearest integer to [a / b] for [0 <= a], [0 < b], ties to even. *)
Definition round_half_even_div (a b : Z) : Z :=
  let q := a / b in
  let r := a mod b in
  match 2 * r ?= b with
  | Lt => q
  | Gt => q + 1
  | Eq => if Z.even q then q else q + 1
  end.

(** The built-in [round(x, ndigits)] on a float, for [0 <= ndigits]:
    the exact value of [x] is rounded to [ndigits] decimal places,
    ties to even, and the decimal is converted back to the nearest
    float. Infinities and NaN round to themselves, the sign of a zero
    result is the sign of [x]. *)
Definition round (x : float) (ndigits : Z) : float :=
  match x with
  | S754_finite s m e =>
      if 323 <? ndigits then x else
      let scale := 10 ^ ndigits in
      let n := if 0 <=? e then Zpos m * 2 ^ e * scale
               else round_half_even_div (Zpos m * scale) (2 ^ (- e)) in
      match n with
      | Z0 => S754_zero s
      | Zpos p =>
          SFdiv prec emax (S754_finite s p 0)
                          (S754_finite false (Z.to_pos scale) 0)
      | Zneg _ => S754_nan
      end
  | _ => x
  end.

(** Whole milliseconds in a number of seconds; 0 for a negative value, an
    infinity or NaN. Only used to compare a timeout with durations. *)
Definition to_millis (x : float) : Z :=
  match x with
  | S754_finite false m e => Z.shiftl (Zpos m * 1000) e
  | _ => 0
  end.

End PyFloat.

Abbreviation float := PyFloat.float.

(** ** Python values *)

Inductive pyval :=
| PyInt (z : Z)                (* an [int] *)
| PyBool (b : bool)            (* [True] or [False]; [bool] is a subclass of [int] *)
| PyStr (s : string)           (* a [str] *)
| PyOther (cls : string) (truthy : bool) (shown : string).
    (* any other object: the name of its class, its truth value and [str()] of it *)

(** The integer an [int] instance stands for. *)
Definition int_value (v : pyval) : option Z :=
  match v with
  | PyInt z => Some z
  | PyBool b => Some (if b then 1 else 0)
  | _ => None
  end.

(** [isinstance(v, int)] *)
Definition isinstance_int (v : pyval) : bool :=
  match v with
  | PyInt _ | PyBool _ => true
  | _ => false
  end.

(** [isinstance(v, str)] *)
Definition isinstance_str (v : pyval) : bool :=
  match v with
  | PyStr _ => true
  | _ => false
  end.

(** [bool(v)], the truth value that [not v] negates. *)
Definition truth (v : pyval) : bool :=
  match v with
  | PyInt z => negb (z =? 0)
  | PyBool b => b
  | PyStr s => negb (String.eqb s "")
  | PyOther _ t _ => t
  end.

(** [v < n] and [v > n] against an integer constant. The module only
    compares after [isinstance(v, int)] has succeeded. *)
Definition int_lt (v : pyval) (n : Z) : bool :=
  match int_value v with Some z => z <? n | None => false end.

Definition int_gt (v : pyval) (n : Z) : bool :=
  match int_value v with Some z => n <? z | None => false end.

Definition str_of_Z (z : Z) : string := NilZero.string_of_int (Z.to_int z).

(** The text of [str(v)], if [str(v)] returns. *)
Definition str_text (v : pyval) : string :=
  match v with
  | PyInt z => str_of_Z z
  | PyBool true => "True"
  | PyBool false => "False"
  | PyStr s => s
  | PyOther _ _ shown => shown
  end.

Definition type_name (v : pyval) : string :=
  match v with
  | PyInt _ => "int"
  | PyBool _ => "bool"
  | PyStr _ => "str"
  | PyOther cls _ _ => cls
  end.

(** [str(type(v))] *)
Definition py_type_str (v : pyval) : string :=
  "<class '" +:+ type_name v +:+ "'>".

(** ** Exceptions *)

(** The classes the handlers of the module tell apart. [socket.error] is
    [OSError]; [socket.timeout], [socket.gaierror] and the two connection
    errors are subclasses of it. An exception is tagged with the most
    specific of these classes it is an instance of. *)
Inductive exc_class :=
| ValueError
| socket_timeout
| ConnectionRefusedError
| ConnectionResetError
| socket_gaierror
| socket_error
| Exception.

Definition issubclass (c d : exc_class) : bool :=
  match d, c with
  | Exception, _ => true
  | socket_error, (socket_error | socket_timeout | ConnectionRefusedError
                   | ConnectionResetError | socket_gaierror) => true
  | ValueError, ValueError => true
  | socket_timeout, socket_timeout => true
  | ConnectionRefusedError, ConnectionRefusedError => true
  | ConnectionResetError, ConnectionResetError => true
  | socket_gaierror, socket_gaierror => true
  | _, _ => false
  end.

Record exc := mk_exc { exc_type : exc_class; exc_message : string }.

Definition isinstance (e : exc) (c : exc_class) : bool :=
  issubclass (exc_type e) c.
Arguments isinstance : simpl never.

(** [str(e)] *)
Definition str (e : exc) : string := exc_message e.

(** What a call that may raise comes back with. *)
Inductive outcome (A : Type) :=
| Raised (e : exc)
| Returned (a : A).
Arguments Raised {A} e.
Arguments Returned {A} a.

(** Statements that may raise, in sequence. *)
#[export] Instance outcome_ret : MRet outcome := @Returned.
#[export] Instance outcome_bind : MBind outcome :=
  fun A B f m =>
    match m with
    | Raised e => Raised e
    | Returned a => f a
    end.

(** ** Printing values *)

(** The limit on the conversion of an [int] to a string: an integer of
    more than [int_max_str_digits] decimal digits, which is one whose
    absolute value is at least [10 ^ int_max_str_digits], is not
    converted. *)
Definition int_max_str_digits : Z := 4300.

Definition str_digits_limit : Z := Eval vm_compute in 10 ^ int_max_str_digits.

Definition printable_int (z : Z) : bool := Z.abs z <? str_digits_limit.
Arguments printable_int : simpl never.

Definition digits_error : exc :=
  mk_exc ValueError
    ("Exceeds the limit (4300 digits) for integer string conversion; "
     +:+ "use sys.set_int_max_str_digits() to increase the limit").

(** [str(v)], which is what an f-string field [{v}] evaluates. *)
Definition py_str (v : pyval) : outcome string :=
  match v with
  | PyInt z => if printable_int z then Returned (str_of_Z z) else Raised digits_error
  | _ => Returned (str_text v)
  end.

(** [f"{host}:{port}"]: the key of a batch entry, and the part of every
    log message of [fetch] that can fail to print. *)
Definition server_key (host port : pyval) : outcome string :=
  h ← py_str host;
  p ← py_str port;
  Returned (h +:+ ":" +:+ p).

(** ** What the a2s library returns *)

Module a2s.

(** The attributes of the info object that [fetch] reads. *)
Record SourceInfo := {
  server_name : string;
  map_name : string;
  player_count : Z;
  max_players : Z;
  game : string;
  server_type : string;
  platform : string;
  password_protected : bool;
  vac_enabled : bool
}.

Record Player := {
  name : string;
  score : Z;
  duration : float
}.

End a2s.

(** ** Calls to the environment, and programs over them *)

Definition address := (string * pyval)%type.

Inductive event : Type -> Type :=
| socket_gethostbyname (host : pyval) : event (outcome string)
| time_time : event float
| a2s_info (addr : address) (timeout : float) : event (outcome a2s.SourceInfo)
| a2s_players (addr : address) (timeout : float) : event (outcome (list a2s.Player)).

Inductive prog (A : Type) : Type :=
| Ret (a : A)
| Vis {X : Type} (e : event X) (k : X -> prog A).
Arguments Ret {A} a.
Arguments Vis {A X} e k.

Fixpoint bind {A B : Type} (m : prog A) (f : A -> prog B) : prog B :=
  match m with
  | Ret a => f a
  | Vis e k => Vis e (fun x => bind (k x) f)
  end.

Definition call {X : Type} (e : event X) : prog X := Vis e Ret.

#[export] Instance prog_ret : MRet prog := @Ret.
#[export] Instance prog_bind : MBind prog := fun A B f m => bind m f.

(** [raise] and the propagation of an exception through a sequence of
    statements inside a [try] block. *)
Definition raise {A : Type} (c : exc_class) (msg : string) : prog (outcome A) :=
  Ret (Raised (mk_exc c msg)).

(** [raise c(f"...")]: the message is built first, and building it may
    raise. *)
Definition raise_with {A : Type} (c : exc_class) (msg : outcome string)
  : prog (outcome A) :=
  match msg with
  | Returned text => raise c text
  | Raised e => Ret (Raised e)
  end.

Definition try_bind {A B : Type}
    (m : prog (outcome A)) (k : A -> prog (outcome B)) : prog (outcome B) :=
  r ← m;
  match r with
  | Raised e => Ret (Raised e)
  | Returned a => k a
  end.

Notation "x ←? m ; k" := (try_bind m (fun x => k))
  (at level 20, m at level 100, k at level 200, only parsing).
Notation "' x ←? m ; k" := (try_bind m (fun x => k))
  (at level 20, x pattern, m at level 100, k at level 200, only parsing).

(** ** The result dictionaries *)

(** An entry of ["player_list"]. *)
Record player_dict := {
  pd_name : string;
  pd_score : Z;
  pd_duration : float
}.

(** The dictionary under ["data"]. *)
Record server_data := {
  hostname : string;
  map : string;
  current_players : Z;
  max_players : Z;
  game : string;
  server_type : string;
  os : string;
  password_protected : bool;
  vac_enabled : bool;
  ping : float;
  player_list : list player_dict
}.

(** The dictionary [fetch] returns: ["success"] is always present,
    ["data"] and ["error"] are present where the field is [Some]. *)
Record fetch_result := {
  success : bool;
  data : option server_data;
  error : option string
}.

(** ** class CS16ServerFetcher *)

Definition DEFAULT_TIMEOUT : float := PyFloat.three.
Definition MIN_PORT : Z := 1.
Definition MAX_PORT : Z := 65535.

Record CS16ServerFetcher := { timeout : float }.

(** [__init__(self, timeout=DEFAULT_TIMEOUT)]; [None] is the omitted
    argument. *)
Definition __init__ (timeout : option float) : CS16ServerFetcher :=
  {| timeout := PyFloat.max (default DEFAULT_TIMEOUT timeout) PyFloat.half |}.

Definition resolve_address (self : CS16ServerFetcher) (host port : pyval)
  : prog (outcome address) :=
  if negb (isinstance_int port) then
    raise ValueError ("Port must be an integer, got " +:+ py_type_str port)
  else if int_lt port MIN_PORT || int_gt port MAX_PORT then
    raise_with ValueError
      (shown ← py_str port;
       Returned ("Port must be between " +:+ str_of_Z MIN_PORT +:+ " and "
                 +:+ str_of_Z MAX_PORT +:+ ", got " +:+ shown))
  else if negb (truth host) || negb (isinstance_str host) then
    raise ValueError "Host must be a non-empty string"
  else
    r ← call (socket_gethostbyname host);
    match r with
    | Returned resolved_ip => Ret (Returned (resolved_ip, port))
    | Raised e =>
        if isinstance e socket_gaierror then
          raise_with ValueError
            (shown ← py_str host;
             Returned ("Cannot resolve hostname '" +:+ shown +:+ "': " +:+ str e))
        else
          raise ValueError ("Address resolution error: " +:+ str e)
    end.

Definition player_to_dict (p : a2s.Player) : player_dict :=
  {| pd_name := a2s.name p; pd_score := a2s.score p; pd_duration := a2s.duration p |}.

(** In the handler the log message prints the address, a tuple, and with
    it the port. *)
Definition _fetch_player_list (self : CS16ServerFetcher) (addr : address)
  : prog (outcome (list player_dict)) :=
  r ← call (a2s_players addr (timeout self));
  match r with
  | Returned players =>
      Ret (Returned
             (List.map player_to_dict
                (List.filter (fun p => truth (PyStr (a2s.name p))) players)))
  | Raised e =>
      Ret (_ ← py_str addr.2;
           Returned [])
  end.

(** The body of the [try] block of [fetch]. *)
Definition fetch_try (self : CS16ServerFetcher) (host port : pyval)
  : prog (outcome fetch_result) :=
  '(resolved_ip, resolved_port) ←? resolve_address self host port;
  let addr : address := (resolved_ip, resolved_port) in
  start_time ← call time_time;
  info ←? call (a2s_info addr (timeout self));
  now ← call time_time;
  let ping := PyFloat.mul (PyFloat.sub now start_time) PyFloat.thousand in
  player_list ←? _fetch_player_list self addr;
  Ret (Returned
    {| success := true;
       data := Some
         {| hostname := a2s.server_name info;
            map := a2s.map_name info;
            current_players := a2s.player_count info;
            max_players := a2s.max_players info;
            game := a2s.game info;
            server_type := a2s.server_type info;
            os := a2s.platform info;
            password_protected := a2s.password_protected info;
            vac_enabled := a2s.vac_enabled info;
            ping := PyFloat.round ping 2;
            player_list := player_list |};
       error := None |}).

(** The [except] clauses of [fetch], tried in order; an exception that
    no clause matches propagates. Every clause first builds its log
    message, which prints [{host}:{port}]; an exception raised there
    leaves [fetch]. *)
Definition fetch_except (host port : pyval) (e : exc) : outcome fetch_result :=
  if isinstance e ValueError then
    _ ← server_key host port;
    Returned {| success := false; data := None; error := Some (str e) |}
  else if isinstance e socket_timeout then
    _ ← server_key host port;
    Returned {| success := false; data := None;
                error := Some "Connection timeout - server may be offline" |}
  else if isinstance e ConnectionRefusedError then
    _ ← server_key host port;
    Returned {| success := false; data := None;
                error := Some "Connection refused - invalid IP or port" |}
  else if isinstance e ConnectionResetError then
    _ ← server_key host port;
    Returned {| success := false; data := None;
                error := Some "Connection reset - server may be offline" |}
  else if isinstance e socket_error then
    _ ← server_key host port;
    Returned {| success := false; data := None;
                error := Some ("Network error: " +:+ str e) |}
  else if isinstance e Exception then
    _ ← server_key host port;
    Returned {| success := false; data := None;
                error := Some ("Failed to query server: " +:+ str e) |}
  else
    Raised e.

Definition fetch (self : CS16ServerFetcher) (host port : pyval)
  : prog (outcome fetch_result) :=
  r ← fetch_try self host port;
  match r with
  | Returned d => Ret (Returned d)
  | Raised e => Ret (fetch_except host port e)
  end.

(** The loop of [fetch_multiple], from a given [results] dictionary. The
    key is built before the fetch and outside any [try]. *)
Fixpoint fetch_multiple_from (self : CS16ServerFetcher)
    (servers : list (pyval * pyval)) (results : gmap string fetch_result)
  : prog (outcome (gmap string fetch_result)) :=
  match servers with
  | [] => Ret (Returned results)
  | (host, port) :: rest =>
      key ←? Ret (server_key host port);
      r ←? fetch self host port;
      fetch_multiple_from self rest (<[key := r]> results)
  end.

Definition fetch_multiple (self : CS16ServerFetcher) (servers : list (pyval * pyval))
  : prog (outcome (gmap string fetch_result)) :=
  fetch_multiple_from self servers ∅.

(** ** Module-level functions *)

Definition create_fetcher (timeout : option float) : CS16ServerFetcher :=
  __init__ (Some (default DEFAULT_TIMEOUT timeout)).

Definition query_server (host port : pyval) (timeout : option float)
  : prog (outcome fetch_result) :=
  let fetcher := create_fetcher (Some (default DEFAULT_TIMEOUT timeout)) in
  fetch fetcher host port.

(** ** Executions *)

(** One call to the environment as it happened: the call, what it came
    back with, and the wall-clock time it took, in milliseconds. *)
Record step := Step {
  step_type : Type;
  step_event : event step_type;
  step_response : step_type;
  step_millis : Z
}.
Arguments Step {_} _ _ _.

Definition trace := list step.

(** [runs p tr a]: the program [p] can make exactly the calls of [tr], in
    that order, receive the recorded responses, and then return [a]. A
    program is a single thread of control: a call is made when the one
    before it has come back. *)
Fixpoint runs {A : Type} (p : prog A) (tr : trace) (a : A) : Prop :=
  match p with
  | Ret a' => tr = [] /\ a = a'
  | Vis e k => exists x d tr', tr = Step e x d :: tr' /\ runs (k x) tr' a
  end.

(** Wall-clock time of an execution. *)
Fixpoint elapsed (tr : trace) : Z :=
  match tr with
  | [] => 0
  | s :: tr' => step_millis s + elapsed tr'
  end.

(** An environment answers every call, says how long the call took, and
    moves from one state of the world to the next. *)
Definition env (W : Type) : Type := forall X : Type, event X -> W -> X * Z * W.

Fixpoint exec {W A : Type} (h : env W) (p : prog A) (w : W) : A * trace * W :=
  match p with
  | Ret a => (a, [], w)
  | Vis e k =>
      let '(x, d, w1) := h _ e w in
      let '(a, tr, w2) := exec h (k x) w1 in
      (a, Step e x d :: tr, w2)
  end.

(** *** Looking at a step *)

Definition is_query (s : step) : bool :=
  match step_event s with
  | a2s_info _ _ | a2s_players _ _ => true
  | _ => false
  end.

(** The timeout a query was given. *)
Definition query_timeout {X : Type} (e : event X) : option float :=
  match e with
  | a2s_info _ t | a2s_players _ t => Some t
  | _ => None
  end.

Definition resolve_answer (s : step) : option (outcome string) :=
  match s with
  | Step e x _ =>
      match e in event X return X -> option (outcome string) with
      | socket_gethostbyname _ => fun r => Some r
      | _ => fun _ => None
      end x
  end.

Definition info_answer (s : step) : option (outcome a2s.SourceInfo) :=
  match s with
  | Step e x _ =>
      match e in event X return X -> option (outcome a2s.SourceInfo) with
      | a2s_info _ _ => fun r => Some r
      | _ => fun _ => None
      end x
  end.

Definition players_answer (s : step) : option (outcome (list a2s.Player)) :=
  match s with
  | Step e x _ =>
      match e in event X return X -> option (outcome (list a2s.Player)) with
      | a2s_players _ _ => fun r => Some r
      | _ => fun _ => None
      end x
  end.

(** A property of every call a program can make, whatever the
    environment answers. *)
Fixpoint all_calls {A : Type} (P : forall X : Type, event X -> Prop) (p : prog A) : Prop :=
  match p with
  | Ret _ => True
  | Vis e k => P _ e /\ forall x, all_calls P (k x)
  end.

(** ** Notions the statements use *)

(** The dictionary [{"success": False, "error": msg}]. *)
Definition failure (msg : string) : fetch_result :=
  {| success := false; data := None; error := Some msg |}.


(** The message each kind of error is reported with. *)
Definition failure_message (e : exc) : string :=
  match exc_type e with
  | ValueError => str e
  | socket_timeout => "Connection timeout - server may be offline"
  | ConnectionRefusedError => "Connection refused - invalid IP or port"
  | ConnectionResetError => "Connection reset - server may be offline"
  | socket_gaierror | socket_error => "Network error: " +:+ str e
  | Exception => "Failed to query server: " +:+ str e
  end.



Definition host_empty_or_not_string (host : pyval) : Prop :=
  host = PyStr "" \/ forall s, host <> PyStr s.


(** The input passes the three checks of [resolve_address]. *)
Definition accepted (host port : pyval) : bool :=
  isinstance_int port
  && negb (int_lt port MIN_PORT || int_gt port MAX_PORT)
  && truth host && isinstance_str host.

(** The [ValueError] message for a lookup that raised [e]. *)
Definition resolution_message (host : pyval) (e : exc) : string :=
  if isinstance e socket_gaierror then
    "Cannot resolve hostname '" +:+ str_text host +:+ "': " +:+ str e
  else
    "Address resolution error: " +:+ str e.

(** The entries of a player list with a non-empty name, as dictionaries. *)
Definition named_players (players : list a2s.Player) : list player_dict :=
  List.map
    (fun p => {| pd_name := a2s.name p; pd_score := a2s.score p;
                 pd_duration := a2s.duration p |})
    (List.filter (fun p => negb (String.eqb (a2s.name p) "")) players).

(** The player list [fetch] reports for an answer to the PLAYER query. *)
Definition reported_players (pr : outcome (list a2s.Player)) : list player_dict :=
  match pr with
  | Returned players => named_players players
  | Raised _ => []
  end.

(** The successful result built from an info object, the two clock
    readings around the INFO query and a player list. *)
Definition success_result (info : a2s.SourceInfo) (t0 t1 : float)
    (players : list player_dict) : fetch_result :=
  {| success := true;
     data := Some
       {| hostname := a2s.server_name info;
          map := a2s.map_name info;
          current_players := a2s.player_count info;
          max_players := a2s.max_players info;
          game := a2s.game info;
          server_type := a2s.server_type info;
          os := a2s.platform info;
          password_protected := a2s.password_protected info;
          vac_enabled := a2s.vac_enabled info;
          ping := PyFloat.round
                    (PyFloat.mul (PyFloat.sub t1 t0) PyFloat.thousand) 2;
          player_list := players |};
     error := None |}.

(** The results of a batch: the dictionary after the assignments
    [results[key] = r] made in list order. *)
Definition batch_results (entries : list (string * fetch_result))
    (results : gmap string fetch_result) : gmap string fetch_result :=
  foldl (fun acc kv => <[kv.1 := kv.2]> acc) results entries.

(** [str(v)] returns. *)
Definition printable (v : pyval) : Prop := py_str v = Returned (str_text v).

(** The key of a request whose host and port print. *)
Definition key_text (host port : pyval) : string :=
  str_text host +:+ ":" +:+ str_text port.

Definition printable_request (sv : pyval * pyval) : Prop :=
  printable sv.1 /\ printable sv.2.

Definition server_keys (servers : list (pyval * pyval)) : list string :=
  List.map (fun sv => key_text sv.1 sv.2) servers.

(** One execution of [fetch] per requested address. *)
Definition per_address (self : CS16ServerFetcher)
    (servers : list (pyval * pyval)) (per : list (trace * fetch_result)) : Prop :=
  Forall2 (fun sv x => runs (fetch self sv.1 sv.2) x.1 (Returned x.2)) servers per.


(** Every query is given the timeout [t]. *)
Definition queries_use (t : float) (X : Type) (e : event X) : Prop :=
  match query_timeout e with
  | Some t' => t' = t
  | None => True
  end.


(** ** Sample environments *)

(** How the outside answers: the result of each call and the time it
    takes, in milliseconds. *)
Record behaviour := {
  lookup : pyval -> outcome string * Z;
  info_reply : address -> float -> outcome a2s.SourceInfo * Z;
  players_reply : address -> float -> outcome (list a2s.Player) * Z
}.

(** [time.time()] when the clock shows [ms] milliseconds. *)
Definition seconds (ms : Z) : float :=
  SFdiv PyFloat.prec PyFloat.emax (PyFloat.of_Z ms) PyFloat.thousand.

(** The environment of a behaviour; its state is the clock. *)
Definition world (b : behaviour) : env Z :=
  fun X e =>
    match e in event X return Z -> X * Z * Z with
    | socket_gethostbyname host => fun clock =>
        let '(r, d) := lookup b host in (r, d, clock + d)
    | time_time => fun clock => (seconds clock, 0, clock)
    | a2s_info addr t => fun clock =>
        let '(r, d) := info_reply b addr t in (r, d, clock + d)
    | a2s_players addr t => fun clock =>
        let '(r, d) := players_reply b addr t in (r, d, clock + d)
    end.

Definition timed_out : exc := mk_exc socket_timeout "timed out".

(** Address literals resolve at once; nobody answers a query, which
    gives up when its timeout is over. *)
Definition offline : behaviour :=
  {| lookup := fun host => (Returned (str_text host), 0);
     info_reply := fun _ t => (Raised timed_out, PyFloat.to_millis t);
     players_reply := fun _ t => (Raised timed_out, PyFloat.to_millis t) |}.

Definition sample_info : a2s.SourceInfo :=
  {| a2s.server_name := "Dust2 24/7";
     a2s.map_name := "de_dust2";
     a2s.player_count := 3;
     a2s.max_players := 32;
     a2s.game := "Counter-Strike";
     a2s.server_type := "d";
     a2s.platform := "l";
     a2s.password_protected := false;
     a2s.vac_enabled := true |}.

Definition sample_players : list a2s.Player :=
  [ {| a2s.name := "alice"; a2s.score := 12; a2s.duration := PyFloat.of_Z 340 |};
    {| a2s.name := ""; a2s.score := 0; a2s.duration := PyFloat.of_Z 0 |};
    {| a2s.name := "bob"; a2s.score := -1; a2s.duration := PyFloat.of_Z 75 |} ].

(** Names resolve to one address in 5 ms, INFO is answered in 42 ms and
    PLAYER in 40 ms. *)
Definition online : behaviour :=
  {| lookup := fun _ => (Returned "203.0.113.5", 5);
     info_reply := fun _ _ => (Returned sample_info, 42);
     players_reply := fun _ _ => (Returned sample_players, 40) |}.

(** As [online], but the PLAYER query is never answered. *)
Definition no_roster : behaviour :=
  {| lookup := lookup online;
     info_reply := info_reply online;
     players_reply := fun _ t => (Raised timed_out, PyFloat.to_millis t) |}.

(** No name resolves. *)
Definition unknown_host : behaviour :=
  {| lookup := fun _ =>
       (Raised (mk_exc socket_gaierror "[Errno -2] Name or service not known"), 20);
     info_reply := info_reply online;
     players_reply := players_reply online |}.

Definition one_second : float := PyFloat.of_Z 1.

Definition three_servers : list (pyval * pyval) :=
  [ (PyStr "192.0.2.1", PyInt 27015);
    (PyStr "192.0.2.2", PyInt 27015);
    (PyStr "192.0.2.3", PyInt 27015) ].

(** The smallest integer that [str()] does not convert: [10 ** 4300], of
    4301 digits. *)
Definition oversized : Z := str_digits_limit.



(** ** Further notions *)

(** A step takes no longer than the bound for its kind of call: [L] for a
    host lookup, [C] for a clock reading, [T] for a query. *)
Definition step_within (L C T : Z) (s : step) : Prop :=
  match step_event s with
  | socket_gethostbyname _ => step_millis s <= L
  | time_time => step_millis s <= C
  | a2s_info _ _ | a2s_players _ _ => step_millis s <= T
  end.

(** The number of steps of a trace that satisfy a test. *)
Definition count_steps (f : step -> bool) (tr : trace) : nat :=
  length (List.filter f tr).

Definition is_lookup (s : step) : bool :=
  match step_event s with
  | socket_gethostbyname _ => true
  | _ => false
  end.



(** The message [query_cs_server] reports each kind of error with. *)
Definition helper_message (e : exc) : string :=
  match exc_type e with
  | socket_timeout => "Connection timeout - server may be offline"
  | ConnectionRefusedError => "Connection refused - invalid IP or port"
  | _ => "Failed to query server: " +:+ str e
  end.

(** The call is not a host lookup, and if it is a query it goes to the
    address [addr] with the timeout [t]. *)
Definition queries_at (addr : address) (t : float) (X : Type) (e : event X) : Prop :=
  match e with
  | socket_gethostbyname _ => False
  | time_time => True
  | a2s_info a t' | a2s_players a t' => a = addr /\ t' = t
  end.

(** ** server.py *)

(** The query helper of the web layer and the routes built on it. A route
    either returns a body or raises; [HTTPException] is what FastAPI turns
    into an error response. The database is the collection
    [db.widget_configs], a list of documents in insertion order that is
    passed in and handed back. The page template of [serve_widget] and the
    archive of [download_project] are not modelled. *)
Module server.

Inductive raised :=
| HTTPException (status_code : Z) (detail : string)
| Error (e : exc).

Inductive reply (A : Type) :=
| Respond (a : A)
| Raise (x : raised).
Arguments Respond {A} a.
Arguments Raise {A} x.

(** The body of the outer [try] block of [query_cs_server]. *)
Definition query_cs_server_try (ip : string) (port : pyval) (timeout : float)
  : prog (outcome fetch_result) :=
  let addr : address := (ip, port) in
  start_time ← call time_time;
  info ←? call (a2s_info addr timeout);
  now ← call time_time;
  let ping := PyFloat.mul (PyFloat.sub now start_time) PyFloat.thousand in
  r ← call (a2s_players addr timeout);
  let player_list :=
    match r with
    | Returned players =>
        List.map
          (fun p => {| pd_name := a2s.name p; pd_score := a2s.score p;
                       pd_duration := a2s.duration p |})
          (List.filter (fun p => truth (PyStr (a2s.name p))) players)
    | Raised _ => []
    end in
  Ret (Returned
    {| success := true;
       data := Some
         {| hostname := a2s.server_name info;
            map := a2s.map_name info;
            current_players := a2s.player_count info;
            max_players := a2s.max_players info;
            game := a2s.game info;
            server_type := a2s.server_type info;
            os := a2s.platform info;
            password_protected := a2s.password_protected info;
            vac_enabled := a2s.vac_enabled info;
            ping := PyFloat.round ping 2;
            player_list := player_list |};
       error := None |}).

(** Its [except] clauses, tried in order. *)
Definition query_cs_server_except (e : exc) : outcome fetch_result :=
  if isinstance e socket_timeout then
    Returned {| success := false; data := None;
                error := Some "Connection timeout - server may be offline" |}
  else if isinstance e ConnectionRefusedError then
    Returned {| success := false; data := None;
                error := Some "Connection refused - invalid IP or port" |}
  else if isinstance e Exception then
    Returned {| success := false; data := None;
                error := Some ("Failed to query server: " +:+ str e) |}
  else
    Raised e.

(** [query_cs_server(ip, port, timeout=3.0)] *)
Definition query_cs_server (ip : string) (port : pyval) (timeout : option float)
  : prog (outcome fetch_result) :=
  let timeout := default (PyFloat.of_Z 3) timeout in
  r ← query_cs_server_try ip port timeout;
  match r with
  | Returned d => Ret (Returned d)
  | Raised e => Ret (query_cs_server_except e)
  end.

(** [result["error"]] and [result["data"]]; a missing key is a [KeyError]. *)
Definition get_error (result : fetch_result) : outcome string :=
  match error result with
  | Some msg => Returned msg
  | None => Raised (mk_exc Exception "'error'")
  end.

Definition get_data (result : fetch_result) : outcome server_data :=
  match data result with
  | Some d => Returned d
  | None => Raised (mk_exc Exception "'data'")
  end.

(** The request body; pydantic has validated it, so [port] is an integer. *)
Record ServerQueryRequest := { ip : string; port : Z }.

(** [POST /api/query-server] *)
Definition query_server (request : ServerQueryRequest) : prog (reply server_data) :=
  r ← query_cs_server (ip request) (PyInt (port request)) None;
  match r with
  | Raised e => Ret (Raise (Error e))
  | Returned result =>
      if negb (success result) then
        match get_error result with
        | Returned detail => Ret (Raise (HTTPException 400 detail))
        | Raised e => Ret (Raise (Error e))
        end
      else
        match get_data result with
        | Returned d => Ret (Respond d)
        | Raised e => Ret (Raise (Error e))
        end
  end.

(** A value of the ["data"] dictionary. *)
Inductive field_value :=
| FStr (s : string)
| FInt (z : Z)
| FBool (b : bool)
| FFloat (f : float)
| FPlayers (l : list player_dict).

(** The ["data"] dictionary, by key. *)
Definition data_dict (d : server_data) : gmap string field_value :=
  list_to_map
    [ ("hostname", FStr (hostname d));
      ("map", FStr (map d));
      ("current_players", FInt (current_players d));
      ("max_players", FInt (max_players d));
      ("game", FStr (game d));
      ("server_type", FStr (server_type d));
      ("os", FStr (os d));
      ("password_protected", FBool (password_protected d));
      ("vac_enabled", FBool (vac_enabled d));
      ("ping", FFloat (ping d));
      ("player_list", FPlayers (player_list d)) ].

(** The loop of [get_server_status] over [enabled_fields.items()]. *)
Definition filter_fields (enabled_fields : gmap string bool)
    (data : gmap string field_value) : gmap string field_value :=
  foldl (fun filtered_data (item : string * bool) =>
           if item.2 then
             match data !! item.1 with
             | Some v => <[item.1 := v]> filtered_data
             | None => filtered_data
             end
           else filtered_data)
        ∅ (map_to_list enabled_fields).

(** The fields a client submits, which are also fields of a stored
    configuration. *)
Record WidgetConfigCreate := {
  server_ip : string;
  server_port : Z;
  enabled_fields : gmap string bool;
  theme : string;
  accent_color : string;
  background_color : string;
  text_color : string;
  font_family : string;
  refresh_interval : Z;
  dark_mode : bool;
  border_radius : Z;
  border_style : string;
  shadow_intensity : Z;
  animation_speed : string;
  layout : string
}.

(** The ["config"] part of a status response. *)
Record widget_style := {
  style_theme : string;
  style_accent_color : string;
  style_font_family : string;
  style_dark_mode : bool;
  style_refresh_interval : Z
}.

(** What [get_server_status] returns. *)
Record status_response := {
  status_success : bool;
  status_data : option (gmap string field_value);
  status_error : option string;
  status_config : option widget_style
}.

Section Store.

(** Dates: the type [datetime] with [isoformat] and [fromisoformat], which
    raises on text it cannot read. *)
Variable datetime : Type.
Variable isoformat : datetime -> string.
Variable fromisoformat : string -> outcome datetime.

(** [WidgetConfig]: the submitted fields with the generated identifier and
    the creation time. *)
Record WidgetConfig := {
  config_id : string;
  fields : WidgetConfigCreate;
  created_at : datetime
}.

(** A stored [created_at] is text or a date. *)
Inductive stored_time :=
| IsoText (s : string)
| NativeDate (d : datetime).

(** A document of the collection, without its ["_id"]. *)
Record document := {
  doc_config_id : string;
  doc_fields : WidgetConfigCreate;
  doc_created_at : stored_time
}.

(** [find_one({"config_id": config_id}, {"_id": 0})] *)
Definition find_one (collection : list document) (id : string) : option document :=
  List.find (fun doc => String.eqb (doc_config_id doc) id) collection.

(** [insert_one(doc)] *)
Definition insert_one (collection : list document) (doc : document) : list document :=
  collection ++ [doc].

(** [POST /api/save-config]. [new_id] is [str(uuid.uuid4())] and [now] is
    [datetime.now(timezone.utc)]. *)
Definition save_config (collection : list document) (new_id : string) (now : datetime)
    (config : WidgetConfigCreate) : list document * WidgetConfig :=
  let config_obj := {| config_id := new_id; fields := config; created_at := now |} in
  let doc := {| doc_config_id := config_id config_obj;
                doc_fields := fields config_obj;
                doc_created_at := IsoText (isoformat (created_at config_obj)) |} in
  (insert_one collection doc, config_obj).

(** [GET /api/config/{config_id}] *)
Definition get_config (collection : list document) (id : string) : reply WidgetConfig :=
  match find_one collection id with
  | None => Raise (HTTPException 404 "Configuration not found")
  | Some config =>
      match doc_created_at config with
      | IsoText s =>
          match fromisoformat s with
          | Returned d =>
              Respond {| config_id := doc_config_id config;
                         fields := doc_fields config; created_at := d |}
          | Raised e => Raise (Error e)
          end
      | NativeDate d =>
          Respond {| config_id := doc_config_id config;
                     fields := doc_fields config; created_at := d |}
      end
  end.

(** [GET /api/server-status/{config_id}] *)
Definition get_server_status (collection : list document) (id : string)
  : prog (reply status_response) :=
  match find_one collection id with
  | None => Ret (Raise (HTTPException 404 "Configuration not found"))
  | Some config =>
      r ← query_cs_server (server_ip (doc_fields config))
                          (PyInt (server_port (doc_fields config))) None;
      match r with
      | Raised e => Ret (Raise (Error e))
      | Returned result =>
          if negb (success result) then
            match get_error result with
            | Returned msg =>
                Ret (Respond {| status_success := false; status_data := None;
                                status_error := Some msg; status_config := None |})
            | Raised e => Ret (Raise (Error e))
            end
          else
            match get_data result with
            | Raised e => Ret (Raise (Error e))
            | Returned d =>
                let filtered_data :=
                  filter_fields (enabled_fields (doc_fields config)) (data_dict d) in
                Ret (Respond
                  {| status_success := true;
                     status_data := Some filtered_data;
                     status_error := None;
                     status_config := Some
                       {| style_theme := theme (doc_fields config);
                          style_accent_color := accent_color (doc_fields config);
                          style_font_family := font_family (doc_fields config);
                          style_dark_mode := dark_mode (doc_fields config);
                          style_refresh_interval :=
                            refresh_interval (doc_fields config) |} |})
            end
      end
  end.

End Store.

Arguments Build_WidgetConfig {datetime} _ _ _.
Arguments config_id {datetime} _.
Arguments fields {datetime} _.
Arguments created_at {datetime} _.
Arguments IsoText {datetime} s.
Arguments NativeDate {datetime} d.
Arguments Build_document {datetime} _ _ _.
Arguments doc_config_id {datetime} _.
Arguments doc_fields {datetime} _.
Arguments doc_created_at {datetime} _.
Arguments find_one {datetime} collection id.
Arguments insert_one {datetime} collection doc.
Arguments save_config {datetime} isoformat collection new_id now config.
Arguments get_config {datetime} fromisoformat collection id.
Arguments get_server_status {datetime} collection id.

(** A sample configuration: the defaults of [WidgetConfig] for a server. *)
Definition sample_config : WidgetConfigCreate :=
  {| server_ip := "203.0.113.5";
     server_port := 27015;
     enabled_fields :=
       list_to_map
         [ ("hostname", true); ("map", true); ("current_players", true);
           ("max_players", true); ("player_list", false); ("game", true);
           ("ping", true); ("password_protected", true); ("vac_enabled", true) ];
     theme := "neon";
     accent_color := "#00ff88";
     background_color := "#0f0f14";
     text_color := "#e0e0e0";
     font_family := "'Space Grotesk', sans-serif";
     refresh_interval := 30;
     dark_mode := true;
     border_radius := 16;
     border_style := "solid";
     shadow_intensity := 50;
     animation_speed := "normal";
     layout := "default" |}.

(** Sample dates: seconds since the epoch, written in decimal. *)
Definition sample_isoformat (d : Z) : string := str_of_Z d.

Definition sample_fromisoformat (s : string) : outcome Z :=
  match NilZero.int_of_string s with
  | Some d => Returned (Z.of_int d)
  | None => Raised (mk_exc ValueError ("Invalid isoformat string: '" +:+ s +:+ "'"))
  end.


Definition sample_collection : list (document Z) :=
  [ {| doc_config_id := "w1"; doc_fields := sample_config;
       doc_created_at := IsoText "1700000000" |} ].

End server.

(** ** General facts about executions *)

(** Evaluates the calls and the final state of an execution [H] and
    leaves its result as it is. *)
Ltac calls_of H :=
  match type of H with
  | ?e = (_, ?tr, ?w) =>
      let Htr := fresh "Htr" in
      let Hw := fresh "Hw" in
      assert (Htr : e.1.2 = tr) by (rewrite H; reflexivity);
      assert (Hw : e.2 = w) by (rewrite H; reflexivity);
      vm_compute in Htr, Hw; subst tr w
  end.

Lemma runs_bind {A B : Type} (m : prog A) (f : A -> prog B) tr b :
  runs (bind m f) tr b <->
  exists tr1 a tr2, tr = tr1 ++ tr2 /\ runs m tr1 a /\ runs (f a) tr2 b.
Proof.
  revert tr. induction m as [a | X e k IH]; intros tr; simpl.
  - split.
    + intros H. exists [], a, tr. auto.
    + intros (tr1 & a' & tr2 & -> & [-> ->] & H). exact H.
  - split.
    + intros (x & d & tr' & -> & H).
      apply IH in H as (tr1 & a & tr2 & -> & H1 & H2).
      exists (Step e x d :: tr1), a, tr2. split; [reflexivity |].
      split; [| exact H2]. exists x, d, tr1. auto.
    + intros (tr1 & a & tr2 & -> & (x & d & tr' & -> & H1) & H2).
      exists x, d, (tr' ++ tr2). split; [reflexivity |].
      apply IH. exists tr', a, tr2. auto.
Qed.

Lemma exec_runs {W A : Type} (h : env W) (p : prog A) w a tr w' :
  exec h p w = (a, tr, w') -> runs p tr a.
Proof.
  revert w a tr w'. induction p as [r | X e k IH]; intros w a tr w'; simpl.
  - intros [= <- <- <-]. auto.
  - destruct (h X e w) as [[x d] w1] eqn:Hh.
    destruct (exec h (k x) w1) as [[a1 tr1] w2] eqn:He.
    intros [= <- <- <-]. exists x, d, tr1. split; [reflexivity |].
    eapply IH. exact He.
Qed.

Lemma elapsed_app tr1 tr2 : elapsed (tr1 ++ tr2) = elapsed tr1 + elapsed tr2.
Proof. induction tr1 as [| s tr1 IH]; simpl; lia. Qed.

Lemma all_calls_bind {A B : Type} P (m : prog A) (f : A -> prog B) :
  all_calls P m -> (forall a, all_calls P (f a)) -> all_calls P (bind m f).
Proof.
  intros Hm Hf. induction m as [a | X e k IH]; simpl in *.
  - apply Hf.
  - destruct Hm as [He Hk]. split; [exact He |]. intros x. apply IH, Hk.
Qed.

Lemma exec_bind {W A B : Type} (h : env W) (m : prog A) (f : A -> prog B) w :
  exec h (bind m f) w
  = let '(a, tr1, w1) := exec h m w in
    let '(b, tr2, w2) := exec h (f a) w1 in
    (b, tr1 ++ tr2, w2).
Proof.
  revert w. induction m as [a | X e k IH]; intros w; simpl.
  - destruct (exec h (f a) w) as [[b tr2] w2]. reflexivity.
  - destruct (h X e w) as [[x d] w1]. rewrite IH.
    destruct (exec h (k x) w1) as [[a tr1] w2].
    destruct (exec h (f a) w2) as [[b tr2] w3]. reflexivity.
Qed.

(** ** Printing *)

Lemma str_digits_limit_eq : str_digits_limit = 10 ^ int_max_str_digits.
Proof. vm_compute. reflexivity. Qed.

Lemma port_range_below_limit : 65535 < str_digits_limit.
Proof. vm_compute. reflexivity. Qed.

Lemma printable_int_small (z : Z) : -65535 <= z <= 65535 -> printable_int z = true.
Proof.
  intros Hz. unfold printable_int. apply Z.ltb_lt.
  pose proof port_range_below_limit as Hlim.
  set (lim := str_digits_limit) in *. lia.
Qed.

Lemma printable_int_iff (z : Z) : printable (PyInt z) <-> printable_int z = true.
Proof.
  unfold printable, py_str. simpl.
  destruct (printable_int z); split; intros H; try reflexivity; discriminate H.
Qed.

Lemma printable_dec (v : pyval) : printable v \/ py_str v = Raised digits_error.
Proof.
  unfold printable. destruct v as [z | b | s | c t sh]; simpl; auto.
  destruct (printable_int z); auto.
Qed.

Lemma not_printable (v : pyval) : ~ printable v -> py_str v = Raised digits_error.
Proof. intros H. destruct (printable_dec v) as [Hp | Hp]; [contradiction | exact Hp]. Qed.

Lemma server_key_printable host port :
  printable host -> printable port ->
  server_key host port = Returned (key_text host port).
Proof.
  unfold printable, server_key, key_text. intros -> ->. reflexivity.
Qed.

Lemma server_key_returned host port k :
  server_key host port = Returned k ->
  printable host /\ printable port /\ k = key_text host port.
Proof.
  unfold server_key, key_text. intros H.
  destruct (printable_dec host) as [Hh | Hh]; rewrite Hh in H; [| discriminate H].
  destruct (printable_dec port) as [Hp | Hp]; rewrite Hp in H; [| discriminate H].
  injection H as <-. auto.
Qed.

Lemma server_key_raised host port e :
  server_key host port = Raised e ->
  e = digits_error /\ ~ printable_request (host, port).
Proof.
  unfold server_key, printable_request. simpl. intros H.
  destruct (printable_dec host) as [Hh | Hh].
  - destruct (printable_dec port) as [Hp | Hp].
    + rewrite Hh, Hp in H. discriminate H.
    + rewrite Hh, Hp in H. injection H as <-. split; [reflexivity |].
      intros [_ Hp']. unfold printable in Hp'. congruence.
  - rewrite Hh in H. injection H as <-. split; [reflexivity |].
    intros [Hh' _]. unfold printable in Hh'. congruence.
Qed.

Lemma server_key_unprintable host port :
  ~ printable_request (host, port) -> server_key host port = Raised digits_error.
Proof.
  intros H. destruct (server_key host port) as [e | k] eqn:Hk.
  - apply server_key_raised in Hk as [-> _]. reflexivity.
  - apply server_key_returned in Hk as (Hh & Hp & _). exfalso. apply H. split; assumption.
Qed.

Lemma unprintable_beyond (z : Z) :
  str_digits_limit <= Z.abs z -> ~ printable (PyInt z).
Proof.
  rewrite printable_int_iff. unfold printable_int. intros Hz H.
  apply Z.ltb_lt in H. set (lim := str_digits_limit) in *. lia.
Qed.

Lemma oversized_unprintable : ~ printable (PyInt oversized).
Proof.
  apply unprintable_beyond. unfold oversized.
  pose proof port_range_below_limit as Hlim.
  set (lim := str_digits_limit) in *. lia.
Qed.


Lemma accepted_printable host port :
  accepted host port = true -> printable host /\ printable port.
Proof.
  unfold accepted. intros H.
  destruct (isinstance_int port) eqn:Hint; simpl in H; [| discriminate H].
  destruct (int_lt port MIN_PORT || int_gt port MAX_PORT) eqn:Hr; simpl in H;
    [discriminate H |].
  destruct (truth host); simpl in H; [| discriminate H].
  split.
  - destruct host; try discriminate H; reflexivity.
  - destruct port as [z | b | s | c t sh]; try reflexivity.
    apply printable_int_iff, printable_int_small.
    apply orb_false_iff in Hr as [Hlo Hhi].
    unfold int_lt, int_gt, MIN_PORT, MAX_PORT in Hlo, Hhi. simpl in Hlo, Hhi.
    apply Z.ltb_ge in Hlo, Hhi. lia.
Qed.

(** ** The model on known values *)

(** [round(2.675, 2) == 2.67]: the float nearest to 2.675 is below it. *)
Example round_below_half :
  PyFloat.round (S754_finite false 6023564501608038 (-51)) 2
  = S754_finite false 6012305502539612 (-51).
Proof. reflexivity. Qed.

(** [round(0.125, 2) == 0.12]: an exact tie goes to the even digit. *)
Example round_tie_to_even :
  PyFloat.round (S754_finite false 4503599627370496 (-55)) 2
  = S754_finite false 8646911284551352 (-56).
Proof. reflexivity. Qed.

(** [round(-0.001, 2) == -0.0] *)
Example round_keeps_sign_of_zero :
  PyFloat.round (S754_finite true 4611686018427388 (-62)) 2 = S754_zero true.
Proof. reflexivity. Qed.

(** [round((1712345678.2934573 - 1712345678.25) * 1000, 2) == 43.46] *)
Example ping_of_two_readings :
  PyFloat.round
    (PyFloat.mul
       (PyFloat.sub (S754_finite false 7182098327848961 (-22))
                    (S754_finite false 7182098327666688 (-22)))
       PyFloat.thousand) 2
  = S754_finite false 6116451243922555 (-47).
Proof. reflexivity. Qed.

(** [max(3.0, 0.5) == 3.0] and [max(0.1, 0.5) == 0.5] *)
Example max_of_default : PyFloat.max PyFloat.three PyFloat.half = PyFloat.three.
Proof. reflexivity. Qed.

Example max_of_small :
  PyFloat.max (S754_finite false 7205759403792794 (-56)) PyFloat.half = PyFloat.half.
Proof. reflexivity. Qed.

(** The cases of [test_address_validation]. *)
Example test_port_too_high :
  resolve_address (__init__ None) (PyStr "192.168.1.100") (PyInt 70000)
  = raise ValueError "Port must be between 1 and 65535, got 70000".
Proof. reflexivity. Qed.

Example test_port_too_low :
  resolve_address (__init__ None) (PyStr "192.168.1.100") (PyInt 0)
  = raise ValueError "Port must be between 1 and 65535, got 0".
Proof. reflexivity. Qed.

Example test_port_type :
  resolve_address (__init__ None) (PyStr "192.168.1.100") (PyStr "27015")
  = raise ValueError "Port must be an integer, got <class 'str'>".
Proof. reflexivity. Qed.

Example test_empty_hostname :
  resolve_address (__init__ None) (PyStr "") (PyInt 27015)
  = raise ValueError "Host must be a non-empty string".
Proof. reflexivity. Qed.

(** [test_invalid_address]: a name that does not resolve. *)
Example test_invalid_address :
  (exec (world unknown_host)
        (query_server (PyStr "invalid-host-that-definitely-does-not-exist-12345.com")
                      (PyInt 27015) None) 0).1.1
  = Returned (failure
      ("Cannot resolve hostname 'invalid-host-that-definitely-does-not-exist-12345.com': "
       +:+ "[Errno -2] Name or service not known")).
Proof. reflexivity. Qed.

(** [test_invalid_server]: an address nobody answers at. *)
Example test_invalid_server :
  (exec (world offline)
        (query_server (PyStr "192.0.2.1") (PyInt 27015) (Some one_second)) 0).1.1
  = Returned (failure "Connection timeout - server may be offline").
Proof. reflexivity. Qed.

(** [test_multiple_servers]: three requests, three entries. *)
Example test_multiple_servers :
  match (exec (world unknown_host)
           (fetch_multiple (create_fetcher (Some one_second))
              [ (PyStr "invalid1.test", PyInt 27015);
                (PyStr "invalid2.test", PyInt 27015);
                (PyStr "invalid3.test", PyInt 27015) ]) 0).1.1 with
  | Returned results => size results = 3%nat
  | Raised _ => False
  end.
Proof. vm_compute. reflexivity. Qed.

(** ** The executions of [fetch] *)

Lemma resolve_address_rejected self host port :
  accepted host port = false ->
  exists msg, resolve_address self host port = raise ValueError msg.
Proof.
  unfold accepted, resolve_address. intros H.
  destruct (isinstance_int port); simpl in *; [| eauto].
  destruct (int_lt port MIN_PORT || int_gt port MAX_PORT); simpl in *.
  - destruct (printable_dec port) as [Hp | Hp]; [unfold printable in Hp |];
      rewrite Hp; simpl; unfold raise, digits_error; eauto.
  - destruct (truth host); simpl in *; [| eauto].
    destruct (isinstance_str host); simpl in *; [discriminate | eauto].
Qed.

Lemma resolve_address_accepted self host port tr r :
  accepted host port = true ->
  runs (resolve_address self host port) tr r <->
  exists x d,
    tr = [Step (socket_gethostbyname host) x d] /\
    r = match x with
        | Returned resolved_ip => Returned (resolved_ip, port)
        | Raised e => Raised (mk_exc ValueError (resolution_message host e))
        end.
Proof.
  unfold accepted, resolve_address. intros H.
  destruct (isinstance_int port); simpl in *; [| discriminate].
  destruct (int_lt port MIN_PORT || int_gt port MAX_PORT); simpl in *; [discriminate |].
  destruct (truth host); simpl in *; [| discriminate].
  destruct host as [z | b | h | c t sh]; simpl in *; try discriminate.
  unfold resolution_message, raise. split.
  - intros (x & d & tr' & -> & H1). exists x, d.
    destruct x as [e | ip]; simpl in H1.
    + destruct (isinstance e socket_gaierror); simpl in H1;
        destruct H1 as [-> ->]; auto.
    + destruct H1 as [-> ->]; auto.
  - intros (x & d & -> & ->). exists x, d, []. split; [reflexivity |].
    destruct x as [e | ip]; simpl; [| auto].
    destruct (isinstance e socket_gaierror); simpl; auto.
Qed.

Lemma fetch_player_list_runs self addr tr l :
  printable addr.2 ->
  runs (_fetch_player_list self addr) tr l <->
  exists pr d,
    tr = [Step (a2s_players addr (timeout self)) pr d] /\
    l = Returned (reported_players pr).
Proof.
  unfold printable, _fetch_player_list, reported_players, named_players.
  intros Hp. simpl. split.
  - intros (pr & d & tr' & -> & H). exists pr, d.
    destruct pr as [e | players]; simpl in H; rewrite ?Hp in H;
      destruct H as [-> ->]; auto.
  - intros (pr & d & -> & ->). exists pr, d, []. split; [reflexivity |].
    destruct pr; simpl; rewrite ?Hp; simpl; auto.
Qed.

Lemma try_bind_runs {A B : Type} (m : prog (outcome A)) (k : A -> prog (outcome B)) tr b :
  runs (try_bind m k) tr b <->
  (exists e, runs m tr (Raised e) /\ b = Raised e) \/
  (exists tr1 a tr2, tr = tr1 ++ tr2 /\ runs m tr1 (Returned a) /\ runs (k a) tr2 b).
Proof.
  unfold try_bind, mbind, prog_bind. rewrite runs_bind. split.
  - intros (tr1 & [e | a] & tr2 & -> & H1 & H2); simpl in H2.
    + destruct H2 as [-> ->]. left. exists e. rewrite app_nil_r. auto.
    + right. exists tr1, a, tr2. auto.
  - intros [(e & H & ->) | (tr1 & a & tr2 & -> & H1 & H2)].
    + exists tr, (Raised e), []. rewrite app_nil_r. simpl. auto.
    + exists tr1, (Returned a), tr2. auto.
Qed.

Lemma fetch_try_cases self host port tr r :
  runs (fetch_try self host port) tr r ->
  (exists msg,
      resolve_address self host port = raise ValueError msg /\
      accepted host port = false /\
      tr = [] /\ r = Raised (mk_exc ValueError msg)) \/
  (exists e d,
      accepted host port = true /\
      tr = [Step (socket_gethostbyname host) (Raised e) d] /\
      r = Raised (mk_exc ValueError (resolution_message host e))) \/
  (exists ip d1 t0 d2 e d3,
      accepted host port = true /\
      tr = [Step (socket_gethostbyname host) (Returned ip) d1;
            Step time_time t0 d2;
            Step (a2s_info (ip, port) (timeout self)) (Raised e) d3] /\
      r = Raised e) \/
  (exists ip d1 t0 d2 info d3 t1 d4 pr d5,
      accepted host port = true /\
      tr = [Step (socket_gethostbyname host) (Returned ip) d1;
            Step time_time t0 d2;
            Step (a2s_info (ip, port) (timeout self)) (Returned info) d3;
            Step time_time t1 d4;
            Step (a2s_players (ip, port) (timeout self)) pr d5] /\
      r = Returned (success_result info t0 t1 (reported_players pr))).
Proof.
  unfold fetch_try. intros H.
  destruct (accepted host port) eqn:Hacc.
  - apply try_bind_runs in H as [(e & H & ->) | (tr1 & [ip p] & tr2 & -> & H1 & H2)].
    + apply (resolve_address_accepted _ _ _ _ _ Hacc) in H as (x & d & -> & Hx).
      destruct x as [e' | ip]; [| discriminate].
      injection Hx as ->. right. left. exists e', d. auto.
    + apply (resolve_address_accepted _ _ _ _ _ Hacc) in H1 as (x & d & -> & Hx).
      destruct x as [e' | ip']; [discriminate |].
      injection Hx as -> ->.
      unfold mbind, prog_bind in H2. simpl in H2.
      destruct H2 as (t0 & d2 & ta & -> & x & d3 & tb & -> & H2).
      destruct x as [e | info]; simpl in H2.
      * destruct H2 as [-> ->].
        right. right. left. exists ip', d, t0, d2, e, d3. auto.
      * destruct H2 as (t1 & d4 & tc & -> & pr & d5 & td & -> & H2).
        right. right. right. exists ip', d, t0, d2, info, d3, t1, d4, pr, d5.
        destruct (accepted_printable _ _ Hacc) as [_ Hp]. unfold printable in Hp.
        destruct pr as [e | players]; simpl in H2; rewrite ?Hp in H2;
          destruct H2 as [-> ->]; auto.
  - destruct (resolve_address_rejected self host port Hacc) as [msg Hmsg].
    rewrite Hmsg in H. simpl in H. destruct H as [-> ->].
    left. exists msg. auto.
Qed.

Lemma fetch_except_logs host port e :
  fetch_except host port e
  = (_ ← server_key host port;
     Returned (failure (failure_message e))).
Proof. destruct e as [[] msg]; reflexivity. Qed.

Lemma fetch_except_returns host port e :
  printable host -> printable port ->
  fetch_except host port e = Returned (failure (failure_message e)).
Proof.
  intros Hh Hp. rewrite fetch_except_logs, (server_key_printable _ _ Hh Hp).
  reflexivity.
Qed.


Lemma fetch_runs self host port tr r :
  runs (fetch self host port) tr r <->
  exists r0,
    runs (fetch_try self host port) tr r0 /\
    r = match r0 with
        | Returned d => Returned d
        | Raised e => fetch_except host port e
        end.
Proof.
  unfold fetch, mbind, prog_bind. rewrite runs_bind. split.
  - intros (tr1 & r0 & tr2 & -> & H1 & H2). exists r0.
    destruct r0 as [e | d]; simpl in H2; destruct H2 as [-> ->];
      rewrite app_nil_r; auto.
  - intros (r0 & H & ->). exists tr, r0, []. rewrite app_nil_r.
    destruct r0; simpl; auto.
Qed.


(** Every execution of [fetch] is of one of four shapes. In the first the
    handler's log message is all that is left to go wrong. *)
Lemma fetch_cases self host port tr r :
  runs (fetch self host port) tr r ->
  (exists msg,
      resolve_address self host port = raise ValueError msg /\
      accepted host port = false /\
      tr = [] /\
      r = (_ ← server_key host port;
           Returned (failure msg))) \/
  (exists e d,
      accepted host port = true /\
      tr = [Step (socket_gethostbyname host) (Raised e) d] /\
      r = Returned (failure (resolution_message host e))) \/
  (exists ip d1 t0 d2 e d3,
      accepted host port = true /\
      tr = [Step (socket_gethostbyname host) (Returned ip) d1;
            Step time_time t0 d2;
            Step (a2s_info (ip, port) (timeout self)) (Raised e) d3] /\
      r = Returned (failure (failure_message e))) \/
  (exists ip d1 t0 d2 info d3 t1 d4 pr d5,
      accepted host port = true /\
      tr = [Step (socket_gethostbyname host) (Returned ip) d1;
            Step time_time t0 d2;
            Step (a2s_info (ip, port) (timeout self)) (Returned info) d3;
            Step time_time t1 d4;
            Step (a2s_players (ip, port) (timeout self)) pr d5] /\
      r = Returned (success_result info t0 t1 (reported_players pr))).
Proof.
  intros H. apply fetch_runs in H as (r0 & H & ->).
  apply fetch_try_cases in H
    as [(msg & Hr & Ha & -> & ->) | [(e & d & Ha & -> & ->)
       | [(ip & d1 & t0 & d2 & e & d3 & Ha & -> & ->)
       | (ip & d1 & t0 & d2 & info & d3 & t1 & d4 & pr & d5 & Ha & -> & ->)]]].
  - left. exists msg. rewrite fetch_except_logs. auto.
  - right. left. exists e, d.
    destruct (accepted_printable _ _ Ha) as [Hh Hp].
    rewrite (fetch_except_returns _ _ _ Hh Hp). auto.
  - right. right. left. exists ip, d1, t0, d2, e, d3.
    destruct (accepted_printable _ _ Ha) as [Hh Hp].
    rewrite (fetch_except_returns _ _ _ Hh Hp). auto.
  - right. right. right. exists ip, d1, t0, d2, info, d3, t1, d4, pr, d5. auto.
Qed.

(** The same four shapes for a host and a port that print. *)
Lemma fetch_cases_printable self host port tr r :
  printable host -> printable port ->
  runs (fetch self host port) tr r ->
  (exists msg,
      resolve_address self host port = raise ValueError msg /\
      accepted host port = false /\
      tr = [] /\ r = Returned (failure msg)) \/
  (exists e d,
      accepted host port = true /\
      tr = [Step (socket_gethostbyname host) (Raised e) d] /\
      r = Returned (failure (resolution_message host e))) \/
  (exists ip d1 t0 d2 e d3,
      accepted host port = true /\
      tr = [Step (socket_gethostbyname host) (Returned ip) d1;
            Step time_time t0 d2;
            Step (a2s_info (ip, port) (timeout self)) (Raised e) d3] /\
      r = Returned (failure (failure_message e))) \/
  (exists ip d1 t0 d2 info d3 t1 d4 pr d5,
      accepted host port = true /\
      tr = [Step (socket_gethostbyname host) (Returned ip) d1;
            Step time_time t0 d2;
            Step (a2s_info (ip, port) (timeout self)) (Returned info) d3;
            Step time_time t1 d4;
            Step (a2s_players (ip, port) (timeout self)) pr d5] /\
      r = Returned (success_result info t0 t1 (reported_players pr))).
Proof.
  intros Hh Hp H. apply fetch_cases in H as [(msg & Hr & Ha & -> & ->) | H].
  - left. exists msg. rewrite (server_key_printable _ _ Hh Hp). auto.
  - right. exact H.
Qed.

(** An execution of [fetch] that returns a dictionary. *)
Lemma fetch_cases_returned self host port tr r :
  runs (fetch self host port) tr (Returned r) ->
  (exists msg,
      resolve_address self host port = raise ValueError msg /\
      accepted host port = false /\
      printable host /\ printable port /\
      tr = [] /\ r = failure msg) \/
  (exists e d,
      accepted host port = true /\
      tr = [Step (socket_gethostbyname host) (Raised e) d] /\
      r = failure (resolution_message host e)) \/
  (exists ip d1 t0 d2 e d3,
      accepted host port = true /\
      tr = [Step (socket_gethostbyname host) (Returned ip) d1;
            Step time_time t0 d2;
            Step (a2s_info (ip, port) (timeout self)) (Raised e) d3] /\
      r = failure (failure_message e)) \/
  (exists ip d1 t0 d2 info d3 t1 d4 pr d5,
      accepted host port = true /\
      tr = [Step (socket_gethostbyname host) (Returned ip) d1;
            Step time_time t0 d2;
            Step (a2s_info (ip, port) (timeout self)) (Returned info) d3;
            Step time_time t1 d4;
            Step (a2s_players (ip, port) (timeout self)) pr d5] /\
      r = success_result info t0 t1 (reported_players pr)).
Proof.
  intros H. apply fetch_cases in H
    as [(msg & Hr & Ha & -> & Hres) | [(e & d & Ha & -> & [= ->])
       | [(ip & d1 & t0 & d2 & e & d3 & Ha & -> & [= ->])
       | (ip & d1 & t0 & d2 & info & d3 & t1 & d4 & pr & d5 & Ha & -> & [= ->])]]].
  - left. exists msg.
    destruct (server_key host port) as [x | k] eqn:Hk; [discriminate Hres |].
    apply server_key_returned in Hk as (Hh & Hp & _).
    injection Hres as ->. auto 10.
  - right. left. eauto.
  - right. right. left. eauto 10.
  - right. right. right. eauto 15.
Qed.

(** [fetch] returns a dictionary when the host and the port print, and
    raises the error of the conversion when one of them does not. *)
Lemma fetch_returns self host port tr r :
  printable host -> printable port ->
  runs (fetch self host port) tr r -> exists v, r = Returned v.
Proof.
  intros Hh Hp H. apply (fetch_cases_printable _ _ _ _ _ Hh Hp) in H
    as [(msg & _ & _ & _ & ->) | [(e & d & _ & _ & ->)
       | [(ip & d1 & t0 & d2 & e & d3 & _ & _ & ->)
       | (ip & d1 & t0 & d2 & info & d3 & t1 & d4 & pr & d5 & _ & _ & ->)]]];
    eauto.
Qed.


(** ** Invalid addresses (C2) *)





(** ** The PLAYER query is best effort (C3) *)

(** C3. In every execution of [fetch] in which the INFO query returned,
    the result is a success whatever the PLAYER query did; and if the
    PLAYER query raised, whatever the exception, the player list of that
    success is empty. *)
Theorem player_failure_is_swallowed self host port tr r :
  runs (fetch self host port) tr r ->
  (exists s info, In s tr /\ info_answer s = Some (Returned info)) ->
  exists d,
    r = Returned {| success := true; data := Some d; error := None |} /\
    forall s e, In s tr -> players_answer s = Some (Raised e) -> player_list d = [].
Proof.
  intros Hrun (s & info' & Hin & Hinfo).
  apply fetch_cases in Hrun
    as [(msg & Hr & Ha & -> & ->) | [(e & d & Ha & -> & ->)
       | [(ip & d1 & t0 & d2 & e & d3 & Ha & -> & ->)
       | (ip & d1 & t0 & d2 & info & d3 & t1 & d4 & pr & d5 & Ha & -> & ->)]]].
  - destruct Hin.
  - destruct Hin as [<- | []]. discriminate Hinfo.
  - destruct Hin as [<- | [<- | [<- | []]]]; discriminate Hinfo.
  - eexists. split; [reflexivity |]. simpl.
    intros s' e' Hin' Hans.
    destruct Hin' as [<- | [<- | [<- | [<- | [<- | []]]]]]; try discriminate Hans.
    simpl in Hans. injection Hans as ->. reflexivity.
Qed.

Lemma player_failure_is_swallowed_witness :
  exists tr d,
    exec (world no_roster)
         (fetch (__init__ None) (PyStr "cs.example.org") (PyInt 27015)) 0
      = (Returned {| success := true; data := Some d; error := None |}, tr, 3047) /\
    (exists s, In s tr /\ players_answer s = Some (Raised timed_out)) /\
    exists d',
      Returned {| success := true; data := Some d; error := None |}
      = Returned {| success := true; data := Some d'; error := None |} /\
      forall s e, In s tr -> players_answer s = Some (Raised e) -> player_list d' = [].
Proof.
  destruct (exec (world no_roster)
              (fetch (__init__ None) (PyStr "cs.example.org") (PyInt 27015)) 0)
    as [[r tr] w] eqn:Hexec.
  pose proof (exec_runs _ _ _ _ _ _ Hexec) as Hrun.
  vm_compute in Hexec. injection Hexec as <- <- <-.
  eexists _, _. split; [reflexivity |]. split.
  - eexists. split; [do 4 right; left; reflexivity | reflexivity].
  - apply (player_failure_is_swallowed _ _ _ _ _ Hrun).
    eexists _, sample_info. split; [right; right; left; reflexivity | reflexivity].
Defined.

(** ** What [fetch] returns and what it raises (C4) *)




(** ** The ping (C7) *)

(** C7. A successful [fetch] makes exactly five calls, in this order: the
    host lookup, a clock reading [t0], the INFO query, a clock reading
    [t1], the PLAYER query. Its ping is [(t1 - t0) * 1000] rounded to two
    decimal places: the time between the readings taken just before and
    just after the INFO query, in milliseconds, with the PLAYER query
    after both readings. *)
Theorem ping_is_info_round_trip self host port tr r d :
  runs (fetch self host port) tr (Returned r) ->
  data r = Some d ->
  exists ip d1 t0 d2 info d3 t1 d4 pr d5,
    tr = [Step (socket_gethostbyname host) (Returned ip) d1;
          Step time_time t0 d2;
          Step (a2s_info (ip, port) (timeout self)) (Returned info) d3;
          Step time_time t1 d4;
          Step (a2s_players (ip, port) (timeout self)) pr d5] /\
    ping d = PyFloat.round
               (PyFloat.mul (PyFloat.sub t1 t0) (PyFloat.of_Z 1000)) 2.
Proof.
  intros Hrun Hd.
  apply fetch_cases_returned in Hrun
    as [(msg & Hr & Ha & _ & _ & -> & ->) | [(e & d0 & Ha & -> & ->)
       | [(ip & d1 & t0 & d2 & e & d3 & Ha & -> & ->)
       | (ip & d1 & t0 & d2 & info & d3 & t1 & d4 & pr & d5 & Ha & -> & ->)]]];
    try discriminate Hd.
  injection Hd as <-.
  exists ip, d1, t0, d2, info, d3, t1, d4, pr, d5. split; reflexivity.
Qed.

Lemma ping_is_info_round_trip_witness :
  exists tr r d,
    exec (world online)
         (fetch (__init__ None) (PyStr "cs.example.org") (PyInt 27015)) 1000
      = (Returned r, tr, 1087) /\
    data r = Some d /\
    ping d = PyFloat.of_Z 42 /\
    exists ip d1 t0 d2 info d3 t1 d4 pr d5,
      tr = [Step (socket_gethostbyname (PyStr "cs.example.org")) (Returned ip) d1;
            Step time_time t0 d2;
            Step (a2s_info (ip, PyInt 27015) (timeout (__init__ None)))
                 (Returned info) d3;
            Step time_time t1 d4;
            Step (a2s_players (ip, PyInt 27015) (timeout (__init__ None))) pr d5] /\
      ping d = PyFloat.round
                 (PyFloat.mul (PyFloat.sub t1 t0) (PyFloat.of_Z 1000)) 2.
Proof.
  destruct (exec (world online)
              (fetch (__init__ None) (PyStr "cs.example.org") (PyInt 27015)) 1000)
    as [[r tr] w] eqn:Hexec.
  pose proof (exec_runs _ _ _ _ _ _ Hexec) as Hrun.
  vm_compute in Hexec. injection Hexec as <- <- <-.
  eexists _, _, _. split; [reflexivity |]. split; [reflexivity |].
  split; [reflexivity |].
  exact (ping_is_info_round_trip _ _ _ _ _ _ Hrun eq_refl).
Defined.

(** ** Players without a name (C8) *)

Lemma name_nonempty (s : string) : negb (String.eqb s "") = true <-> s <> "".
Proof.
  rewrite negb_true_iff. split.
  - intros H ->. discriminate H.
  - intros H. apply String.eqb_neq. exact H.
Qed.

Lemma named_players_spec (players : list a2s.Player) (e : player_dict) :
  In e (named_players players) <->
  exists p, In p players /\ a2s.name p <> "" /\
            e = {| pd_name := a2s.name p; pd_score := a2s.score p;
                   pd_duration := a2s.duration p |}.
Proof.
  unfold named_players. rewrite in_map_iff. split.
  - intros (p & <- & Hp). apply filter_In in Hp as [Hin Hn].
    exists p. rewrite <- name_nonempty. auto.
  - intros (p & Hin & Hn & ->). exists p. split; [reflexivity |].
    apply filter_In. rewrite name_nonempty. auto.
Qed.

Lemma named_players_named (players : list a2s.Player) :
  Forall (fun e => pd_name e <> "") (named_players players).
Proof.
  apply List.Forall_forall. intros e He.
  apply named_players_spec in He as (p & _ & Hn & ->). exact Hn.
Qed.

(** C8. Every entry of the player list of a successful [fetch] has a
    non-empty name. When the PLAYER query returned [players], the list is
    [players] without the entries whose name is empty, in the same order,
    each kept entry with its name, score and duration: an entry with a
    non-empty name is in the list, and the list has nothing else. *)
Theorem unnamed_players_are_dropped self host port tr r d :
  runs (fetch self host port) tr (Returned r) ->
  data r = Some d ->
  Forall (fun e => pd_name e <> "") (player_list d) /\
  forall s players,
    In s tr -> players_answer s = Some (Returned players) ->
    player_list d = named_players players /\
    (forall p, In p players -> a2s.name p <> "" ->
       In {| pd_name := a2s.name p; pd_score := a2s.score p;
             pd_duration := a2s.duration p |} (player_list d)) /\
    (forall e, In e (player_list d) ->
       exists p, In p players /\ a2s.name p <> "" /\
                 e = {| pd_name := a2s.name p; pd_score := a2s.score p;
                        pd_duration := a2s.duration p |}).
Proof.
  intros Hrun Hd.
  apply fetch_cases_returned in Hrun
    as [(msg & Hr & Ha & _ & _ & -> & ->) | [(e & d0 & Ha & -> & ->)
       | [(ip & d1 & t0 & d2 & e & d3 & Ha & -> & ->)
       | (ip & d1 & t0 & d2 & info & d3 & t1 & d4 & pr & d5 & Ha & -> & ->)]]];
    try discriminate Hd.
  injection Hd as <-. simpl. split.
  - destruct pr as [e | players]; simpl; [constructor | apply named_players_named].
  - intros s players Hin Hans.
    destruct Hin as [<- | [<- | [<- | [<- | [<- | []]]]]]; try discriminate Hans.
    simpl in Hans. injection Hans as ->. simpl. split; [reflexivity |]. split.
    + intros p Hin Hn. apply named_players_spec. eauto.
    + intros e He. apply named_players_spec. exact He.
Qed.

Lemma unnamed_players_are_dropped_witness :
  exists tr r d,
    exec (world online)
         (fetch (__init__ None) (PyStr "cs.example.org") (PyInt 27015)) 1000
      = (Returned r, tr, 1087) /\
    data r = Some d /\
    List.map pd_name (player_list d) = ["alice"; "bob"] /\
    Forall (fun e => pd_name e <> "") (player_list d).
Proof.
  destruct (exec (world online)
              (fetch (__init__ None) (PyStr "cs.example.org") (PyInt 27015)) 1000)
    as [[r tr] w] eqn:Hexec.
  pose proof (exec_runs _ _ _ _ _ _ Hexec) as Hrun.
  vm_compute in Hexec. injection Hexec as <- <- <-.
  eexists _, _, _. split; [reflexivity |]. split; [reflexivity |].
  split; [reflexivity |].
  exact (proj1 (unnamed_players_are_dropped _ _ _ _ _ _ Hrun eq_refl)).
Defined.

(** ** The executions of [fetch_multiple] *)

(** The loop goes through the requests as long as their keys can be
    built: it fetches the requests [done], and either they are all there
    is, or the key of the next one raises and the loop is left there. *)
Lemma fetch_multiple_from_runs self servers results tr out :
  runs (fetch_multiple_from self servers results) tr out ->
  exists done rest per,
    servers = done ++ rest /\
    Forall printable_request done /\
    per_address self done per /\
    tr = concat per.*1 /\
    match rest with
    | [] => out = Returned (batch_results (zip (server_keys done) per.*2) results)
    | sv :: _ => ~ printable_request sv /\ out = Raised digits_error
    end.
Proof.
  revert results tr. induction servers as [| [host port] servers IH]; intros results tr H.
  - simpl in H. destruct H as [-> ->]. exists [], [], [].
    split; [reflexivity |]. split; [constructor |]. split; [constructor | auto].
  - simpl in H.
    apply try_bind_runs in H as [(e & H & ->) | (tr0 & key & tr1 & -> & H0 & H1)].
    + simpl in H. destruct H as [-> Hkey]. symmetry in Hkey.
      apply server_key_raised in Hkey as [-> Hno].
      exists [], ((host, port) :: servers), [].
      split; [reflexivity |]. split; [constructor |]. split; [constructor | auto].
    + simpl in H0. destruct H0 as [-> Hkey]. symmetry in Hkey.
      apply server_key_returned in Hkey as (Hh & Hp & ->).
      apply try_bind_runs in H1 as [(e & H & _) | (tr2 & r & tr3 & -> & H2 & H3)].
      * apply (fetch_returns _ _ _ _ _ Hh Hp) in H as [v Hv]. discriminate Hv.
      * apply IH in H3 as (done & rest & per & -> & Hdone & Hper & -> & Hout).
        exists ((host, port) :: done), rest, ((tr2, r) :: per).
        split; [reflexivity |].
        split; [constructor; [split; assumption | exact Hdone] |].
        split; [constructor; [exact H2 | exact Hper] |].
        split; [reflexivity |].
        destruct rest; exact Hout.
Qed.


(** A batch that returns a dictionary has fetched every request. *)
Lemma fetch_multiple_from_returned self servers results tr res :
  runs (fetch_multiple_from self servers results) tr (Returned res) ->
  Forall printable_request servers /\
  exists per,
    per_address self servers per /\
    tr = concat per.*1 /\
    res = batch_results (zip (server_keys servers) per.*2) results.
Proof.
  intros H.
  apply fetch_multiple_from_runs in H as (done & rest & per & -> & Hdone & Hper & -> & Hout).
  destruct rest as [| sv rest].
  - rewrite app_nil_r. injection Hout as ->. split; [exact Hdone |]. exists per. auto.
  - destruct Hout as [_ Hout]. discriminate Hout.
Qed.

Lemma fetch_multiple_from_runs_inv self servers results per :
  Forall printable_request servers ->
  per_address self servers per ->
  runs (fetch_multiple_from self servers results) (concat per.*1)
       (Returned (batch_results (zip (server_keys servers) per.*2) results)).
Proof.
  intros Hall Hper. revert results.
  induction Hper as [| [host port] [tr1 r1] servers per H1 _ IH]; intros results.
  - simpl. auto.
  - inversion Hall as [| ? ? [Hh Hp] Hall']; subst. simpl in Hh, Hp.
    cbn [fetch_multiple_from].
    apply try_bind_runs. right. exists [], (key_text host port), (tr1 ++ concat per.*1).
    split; [reflexivity |].
    split; [simpl; rewrite (server_key_printable _ _ Hh Hp); auto |].
    apply try_bind_runs. right. exists tr1, r1, (concat per.*1).
    split; [reflexivity |]. split; [exact H1 | apply (IH Hall')].
Qed.

Lemma fetch_multiple_from_raises_inv self done sv rest results per :
  Forall printable_request done ->
  per_address self done per ->
  ~ printable_request sv ->
  runs (fetch_multiple_from self (done ++ sv :: rest) results) (concat per.*1)
       (Raised digits_error).
Proof.
  intros Hall Hper Hno. revert results.
  induction Hper as [| [host port] [tr1 r1] servers per H1 _ IH]; intros results.
  - destruct sv as [host port]. cbn [app fetch_multiple_from].
    apply try_bind_runs. left. exists digits_error. split; [| reflexivity].
    simpl. rewrite (server_key_unprintable _ _ Hno). auto.
  - inversion Hall as [| ? ? [Hh Hp] Hall']; subst. simpl in Hh, Hp.
    cbn [app fetch_multiple_from].
    apply try_bind_runs. right. exists [], (key_text host port), (tr1 ++ concat per.*1).
    split; [reflexivity |].
    split; [simpl; rewrite (server_key_printable _ _ Hh Hp); auto |].
    apply try_bind_runs. right. exists tr1, r1, (concat per.*1).
    split; [reflexivity |]. split; [exact H1 | apply (IH Hall')].
Qed.






(** ** The batch is keyed by the requested address (C5) *)






(** ** The batch is sequential (C1) *)





(** ** The timeout floor (C6) *)

Lemma compare_cont_swap (p q : positive) :
  PosDef.Pos.compare_cont Eq q p = CompOpp (PosDef.Pos.compare_cont Eq p q).
Proof. symmetry. exact (Pos.compare_cont_antisym p q Eq). Qed.

Lemma SFcompare_swap (x y : float) (c : comparison) :
  SFcompare x y = Some c -> SFcompare y x = Some (CompOpp c).
Proof.
  destruct x as [sx | sx | | sx mx ex], y as [sy | sy | | sy my ey]; simpl;
    try discriminate;
    try (destruct sx; intros [= <-]; reflexivity);
    try (destruct sy; intros [= <-]; reflexivity);
    try (destruct sx, sy; intros [= <-]; reflexivity).
  destruct sx, sy; try (intros [= <-]; reflexivity).
  - rewrite (Z.compare_antisym ex ey), (compare_cont_swap mx my).
    destruct (ex ?= ey); simpl; intros [= <-]; reflexivity.
  - rewrite (Z.compare_antisym ex ey), (compare_cont_swap mx my).
    destruct (ex ?= ey); simpl; intros [= <-]; reflexivity.
Qed.

(** For numbers, [max(a, b)] is at least [b]. *)
Lemma max_lower_bound (a b : float) :
  PyFloat.is_nan a = false -> PyFloat.is_nan b = false ->
  PyFloat.leb b (PyFloat.max a b) = true.
Proof.
  unfold PyFloat.max, PyFloat.ltb, PyFloat.leb, SFltb, SFleb. intros Ha Hb.
  destruct (SFcompare a b) as [c |] eqn:Hc.
  - apply SFcompare_swap in Hc as Hs.
    destruct c; simpl in Hs.
    + rewrite Hs. reflexivity.
    + destruct b; try discriminate Hb; simpl; try reflexivity.
      * destruct s; reflexivity.
      * destruct s; rewrite Z.compare_refl;
          change (PosDef.Pos.compare_cont Eq m m) with (Pos.compare m m);
          rewrite Pos.compare_refl; reflexivity.
    + rewrite Hs. reflexivity.
  - destruct a, b; simpl in *; discriminate.
Qed.

Lemma resolve_address_no_query self host port t :
  all_calls (queries_use t) (resolve_address self host port).
Proof.
  unfold resolve_address, raise_with, raise.
  destruct (negb (isinstance_int port)); [exact I |].
  destruct (int_lt port MIN_PORT || int_gt port MAX_PORT).
  { destruct (py_str port); exact I. }
  destruct (negb (truth host) || negb (isinstance_str host)); [exact I |].
  simpl. split; [exact I |]. intros [e | ip]; [| exact I].
  destruct (isinstance e socket_gaierror); [| exact I].
  destruct (py_str host); exact I.
Qed.

Lemma fetch_uses_timeout self host port :
  all_calls (queries_use (timeout self)) (fetch self host port).
Proof.
  unfold fetch, fetch_try, try_bind, mbind, prog_bind.
  repeat apply all_calls_bind.
  - apply resolve_address_no_query.
  - intros [e | [ip p]]; [exact I |]. simpl.
    split; [exact I |]. intros t0. split; [reflexivity |].
    intros [e | info]; [exact I |]. simpl.
    split; [exact I |]. intros t1. split; [reflexivity |].
    intros [e | players]; simpl; [| exact I].
    destruct (py_str p); exact I.
  - intros [e | d]; exact I.
Qed.

Lemma fetch_multiple_from_uses_timeout self servers results :
  all_calls (queries_use (timeout self)) (fetch_multiple_from self servers results).
Proof.
  revert results. induction servers as [| [host port] rest IH]; intros results.
  - exact I.
  - simpl. unfold try_bind, mbind, prog_bind.
    destruct (server_key host port) as [e | key]; simpl; [exact I |].
    apply all_calls_bind.
    + apply fetch_uses_timeout.
    + intros [e | r]; [exact I | apply IH].
Qed.

(** C6. [__init__] computes [max(timeout, 0.5)] and says of it
    [# Ensure minimum timeout], but for NaN the stored timeout is not at
    least 0.5: [max(nan, 0.5)] is [nan], because [0.5 > nan] is false. *)
Lemma nan_timeout_is_kept :
  timeout (__init__ (Some S754_nan)) = S754_nan /\
  PyFloat.leb PyFloat.half (timeout (__init__ (Some S754_nan))) = false.
Proof. split; reflexivity. Qed.

(** X16. For every timeout [t] that is a number (not NaN), the fetcher
    stores [max(t, 0.5)], which is at least 0.5, and every INFO and PLAYER
    query that [fetch] or [fetch_multiple] makes on that fetcher, whatever
    the environment answers, is given exactly the stored value. No method
    assigns to the attribute: the methods only read [self]. *)
Theorem timeout_floor (t : float) :
  PyFloat.is_nan t = false ->
  let self := __init__ (Some t) in
  timeout self = PyFloat.max t PyFloat.half /\
  PyFloat.leb PyFloat.half (timeout self) = true /\
  (forall host port, all_calls (queries_use (timeout self)) (fetch self host port)) /\
  (forall servers, all_calls (queries_use (timeout self)) (fetch_multiple self servers)).
Proof.
  intros Ht self. split; [reflexivity |]. split.
  - apply max_lower_bound; [exact Ht | reflexivity].
  - split.
    + intros host port. apply fetch_uses_timeout.
    + intros servers. apply fetch_multiple_from_uses_timeout.
Qed.

Lemma timeout_floor_witness :
  timeout (__init__ (Some (S754_zero false))) = PyFloat.half /\
  PyFloat.leb PyFloat.half (timeout (__init__ (Some (S754_zero false)))) = true.
Proof.
  destruct (timeout_floor (S754_zero false) eq_refl) as (Hmax & Hfloor & _).
  split; [exact Hmax | exact Hfloor].
Defined.

(** ** The two entry points (C9) *)

(** C9. [query_server(host, port, timeout)] is [fetch(host, port)] on the
    fetcher [create_fetcher(timeout)] makes, also when the timeout is left
    out of both calls: the same calls to the environment and, for the same
    answers, the same result. *)
Theorem query_server_is_create_then_fetch host port (timeout : option float) :
  query_server host port timeout = fetch (create_fetcher timeout) host port.
Proof. destruct timeout; reflexivity. Qed.

(** ** Booleans as ports (C10) *)

(** C10. [True] and [False] are instances of [int]. With [True] as the
    port and a non-empty string as the host, [resolve_address] passes the
    type check and the range check, looks the host up and returns the
    pair of the resolved address and [True], which is the integer 1. With
    [False] as the port it raises the [ValueError] of the range check, not
    the one of the type check. *)
Theorem boolean_ports self :
  isinstance_int (PyBool true) = true /\
  isinstance_int (PyBool false) = true /\
  int_value (PyBool true) = Some 1 /\
  (forall h tr r,
     h <> "" ->
     runs (resolve_address self (PyStr h) (PyBool true)) tr r <->
     exists x d,
       tr = [Step (socket_gethostbyname (PyStr h)) x d] /\
       r = match x with
           | Returned resolved_ip => Returned (resolved_ip, PyBool true)
           | Raised e =>
               Raised (mk_exc ValueError (resolution_message (PyStr h) e))
           end) /\
  (forall host,
     resolve_address self host (PyBool false)
     = raise ValueError "Port must be between 1 and 65535, got False").
Proof.
  split; [reflexivity |]. split; [reflexivity |]. split; [reflexivity |]. split.
  - intros h tr r Hh. apply resolve_address_accepted.
    unfold accepted. simpl. apply name_nonempty in Hh. rewrite Hh. reflexivity.
  - intros host. reflexivity.
Qed.

Lemma boolean_ports_witness :
  runs (resolve_address (__init__ None) (PyStr "192.0.2.1") (PyBool true))
       [Step (socket_gethostbyname (PyStr "192.0.2.1")) (Returned "192.0.2.1") 0]
       (Returned ("192.0.2.1", PyBool true)).
Proof.
  destruct (boolean_ports (__init__ None)) as (_ & _ & _ & Htrue & _).
  apply (Htrue "192.0.2.1"); [discriminate |].
  exists (Returned "192.0.2.1"), 0. split; reflexivity.
Defined.

(** ** More about [resolve_address] *)

(** X1. The checks of [resolve_address] are made in a fixed order and the
    first one that fails decides the error: the type of the port, then
    its range, then the host. The message of the range check prints the
    port; for a port of more than 4300 digits that conversion raises and
    its [ValueError] is the one that leaves [resolve_address]. An input
    that passes all three checks makes exactly one call, the lookup of the
    host as given, and on success returns the resolver's answer with the
    port unchanged. *)
Theorem resolve_address_check_order self host port :
  (isinstance_int port = false ->
   resolve_address self host port
   = raise ValueError ("Port must be an integer, got " +:+ py_type_str port)) /\
  (forall z, int_value port = Some z -> z < 1 \/ 65535 < z ->
   (printable port ->
    resolve_address self host port
    = raise ValueError ("Port must be between 1 and 65535, got " +:+ str_text port)) /\
   (~ printable port ->
    resolve_address self host port = Ret (Raised digits_error))) /\
  (forall z, int_value port = Some z -> 1 <= z <= 65535 ->
   host_empty_or_not_string host ->
   resolve_address self host port = raise ValueError "Host must be a non-empty string") /\
  (forall z h, int_value port = Some z -> 1 <= z <= 65535 ->
   host = PyStr h -> h <> "" ->
   forall tr r,
     runs (resolve_address self host port) tr r <->
     exists x d,
       tr = [Step (socket_gethostbyname (PyStr h)) x d] /\
       r = match x with
           | Returned resolved_ip => Returned (resolved_ip, port)
           | Raised e => Raised (mk_exc ValueError (resolution_message (PyStr h) e))
           end).
Proof.
  assert (Hint : forall z, int_value port = Some z -> isinstance_int port = true).
  { intros z Hz. destruct port; simpl in *; congruence. }
  assert (Hin : forall z, int_value port = Some z -> 1 <= z <= 65535 ->
                int_lt port MIN_PORT || int_gt port MAX_PORT = false).
  { intros z Hz Hr. unfold int_lt, int_gt, MIN_PORT, MAX_PORT. rewrite Hz.
    apply orb_false_iff. split; apply Z.ltb_ge; lia. }
  split; [| split; [| split]].
  - intros H. unfold resolve_address. rewrite H. reflexivity.
  - intros z Hz Hr.
    assert (Hout : int_lt port MIN_PORT || int_gt port MAX_PORT = true).
    { unfold int_lt, int_gt, MIN_PORT, MAX_PORT. rewrite Hz.
      destruct Hr as [Hr | Hr]; apply Z.ltb_lt in Hr; rewrite Hr;
        [reflexivity | apply orb_true_r]. }
    unfold resolve_address. rewrite (Hint z Hz), Hout. simpl. split.
    + unfold printable. intros ->. reflexivity.
    + intros Hp. rewrite (not_printable _ Hp). reflexivity.
  - intros z Hz Hr Hhost. unfold resolve_address.
    rewrite (Hint z Hz), (Hin z Hz Hr). simpl.
    destruct Hhost as [-> | Hns]; [reflexivity |].
    destruct host as [n | b | s | c t sh]; simpl;
      rewrite ?orb_true_r; try reflexivity.
    exfalso. exact (Hns s eq_refl).
  - intros z h Hz Hr -> Hh tr r. apply resolve_address_accepted.
    unfold accepted. rewrite (Hint z Hz), (Hin z Hz Hr). simpl.
    apply name_nonempty in Hh. rewrite Hh. reflexivity.
Qed.

Lemma resolve_address_check_order_witness :
  resolve_address (__init__ None) (PyStr "") (PyStr "27015")
  = raise ValueError "Port must be an integer, got <class 'str'>" /\
  resolve_address (__init__ None) (PyStr "") (PyInt 0)
  = raise ValueError "Port must be between 1 and 65535, got 0" /\
  resolve_address (__init__ None) (PyStr "") (PyInt oversized)
  = Ret (Raised digits_error) /\
  resolve_address (__init__ None) (PyStr "") (PyInt 27015)
  = raise ValueError "Host must be a non-empty string" /\
  runs (resolve_address (__init__ None) (PyStr "cs.example.org") (PyInt 27015))
       [Step (socket_gethostbyname (PyStr "cs.example.org")) (Returned "203.0.113.5") 5]
       (Returned ("203.0.113.5", PyInt 27015)).
Proof.
  split; [| split; [| split; [| split]]].
  - apply (resolve_address_check_order (__init__ None) (PyStr "") (PyStr "27015")).
    reflexivity.
  - destruct (proj1 (proj2 (resolve_address_check_order (__init__ None)
                              (PyStr "") (PyInt 0))) 0 eq_refl) as [H _]; [lia |].
    apply H. reflexivity.
  - destruct (proj1 (proj2 (resolve_address_check_order (__init__ None)
                              (PyStr "") (PyInt oversized))) oversized eq_refl)
      as [_ H]; [right; exact port_range_below_limit |].
    apply H. exact oversized_unprintable.
  - apply (proj1 (proj2 (proj2
             (resolve_address_check_order (__init__ None) (PyStr "") (PyInt 27015))))
             27015 eq_refl); [lia | left; reflexivity].
  - apply (proj2 (proj2 (proj2
             (resolve_address_check_order (__init__ None) (PyStr "cs.example.org")
                (PyInt 27015))))
             27015 "cs.example.org" eq_refl); [lia | reflexivity | discriminate |].
    exists (Returned "203.0.113.5"), 5. split; reflexivity.
Defined.

(** ** What one [fetch] can cost *)

(** The cost of one [fetch], by the shape of its execution. *)
Lemma fetch_cost self host port tr r (L C T : Z) :
  runs (fetch self host port) tr r ->
  0 <= L -> 0 <= C -> 0 <= T ->
  Forall (step_within L C T) tr ->
  (length tr <= 5)%nat /\
  (count_steps is_lookup tr <= 1)%nat /\
  (count_steps is_query tr <= 2)%nat /\
  (forall s, In s tr -> is_query s = true ->
     exists s' ip, In s' tr /\ resolve_answer s' = Some (Returned ip)) /\
  (forall s, In s tr -> players_answer s <> None ->
     exists s' info, In s' tr /\ info_answer s' = Some (Returned info)) /\
  elapsed tr <= L + 2 * C + 2 * T.
Proof.
  intros Hrun HL HC HT Hw.
  apply fetch_cases in Hrun
    as [(msg & Hr & Ha & -> & ->) | [(e & d & Ha & -> & ->)
       | [(ip & d1 & t0 & d2 & e & d3 & Ha & -> & ->)
       | (ip & d1 & t0 & d2 & info & d3 & t1 & d4 & pr & d5 & Ha & -> & ->)]]].
  - repeat split; unfold count_steps; simpl; try lia; intros s [].
  - inversion Hw as [| ? ? H1 _]; subst. unfold step_within in H1. simpl in H1.
    repeat split; unfold count_steps; simpl; try lia.
    + intros s [<- | []] Hq. discriminate Hq.
    + intros s [<- | []] Hp. exfalso. apply Hp. reflexivity.
  - inversion Hw as [| ? ? H1 Hw1]; subst.
    inversion Hw1 as [| ? ? H2 Hw2]; subst.
    inversion Hw2 as [| ? ? H3 _]; subst.
    unfold step_within in H1, H2, H3. simpl in H1, H2, H3.
    repeat split; unfold count_steps; simpl; try lia.
    + intros s _ _. eexists _, ip. split; [left; reflexivity | reflexivity].
    + intros s [<- | [<- | [<- | []]]] Hp; exfalso; apply Hp; reflexivity.
  - inversion Hw as [| ? ? H1 Hw1]; subst.
    inversion Hw1 as [| ? ? H2 Hw2]; subst.
    inversion Hw2 as [| ? ? H3 Hw3]; subst.
    inversion Hw3 as [| ? ? H4 Hw4]; subst.
    inversion Hw4 as [| ? ? H5 _]; subst.
    unfold step_within in H1, H2, H3, H4, H5. simpl in H1, H2, H3, H4, H5.
    repeat split; unfold count_steps; simpl; try lia.
    + intros s _ _. eexists _, ip. split; [left; reflexivity | reflexivity].
    + intros s _ _. eexists _, info.
      split; [right; right; left; reflexivity | reflexivity].
Qed.

(** X2. An execution of [fetch] makes its calls in a fixed order and is
    of one of four shapes: no call at all; the host lookup alone, which
    raised; the lookup, which returned [ip], then a clock reading, then the
    INFO query to [(ip, port)], which raised; or these three with the INFO
    query returning, then a second clock reading, then the PLAYER query to
    [(ip, port)]. So the lookup is the first call and is made once, a
    query is made only after the lookup has returned, and the PLAYER
    query only after the INFO query has returned. There are at most five
    calls, at most two of them queries. If a lookup takes at most [L] ms,
    a clock reading at most [C] and a query at most [T], the fetch takes
    at most [L + 2 C + 2 T] ms. *)
Theorem fetch_call_budget self host port tr r (L C T : Z) :
  runs (fetch self host port) tr r ->
  0 <= L -> 0 <= C -> 0 <= T ->
  Forall (step_within L C T) tr ->
  (tr = [] \/
   (exists e d, tr = [Step (socket_gethostbyname host) (Raised e) d]) \/
   (exists ip d1 t0 d2 e d3,
       tr = [Step (socket_gethostbyname host) (Returned ip) d1;
             Step time_time t0 d2;
             Step (a2s_info (ip, port) (timeout self)) (Raised e) d3]) \/
   (exists ip d1 t0 d2 info d3 t1 d4 pr d5,
       tr = [Step (socket_gethostbyname host) (Returned ip) d1;
             Step time_time t0 d2;
             Step (a2s_info (ip, port) (timeout self)) (Returned info) d3;
             Step time_time t1 d4;
             Step (a2s_players (ip, port) (timeout self)) pr d5])) /\
  (length tr <= 5)%nat /\
  (count_steps is_lookup tr <= 1)%nat /\
  (count_steps is_query tr <= 2)%nat /\
  elapsed tr <= L + 2 * C + 2 * T.
Proof.
  intros Hrun HL HC HT Hw.
  destruct (fetch_cost _ _ _ _ _ L C T Hrun HL HC HT Hw)
    as (Hlen & Hlook & Hq & _ & _ & Hel).
  split; [| auto].
  apply fetch_cases in Hrun
    as [(msg & _ & _ & -> & _) | [(e & d & _ & -> & _)
       | [(ip & d1 & t0 & d2 & e & d3 & _ & -> & _)
       | (ip & d1 & t0 & d2 & info & d3 & t1 & d4 & pr & d5 & _ & -> & _)]]].
  - left. reflexivity.
  - right. left. eauto.
  - right. right. left. eauto 10.
  - right. right. right. eauto 15.
Qed.

Lemma fetch_call_budget_witness :
  exists tr r,
    exec (world online)
         (fetch (__init__ None) (PyStr "cs.example.org") (PyInt 27015)) 1000
      = (r, tr, 1087) /\
    length tr = 5%nat /\
    elapsed tr = 87 /\
    elapsed tr <= 5 + 2 * 0 + 2 * 42.
Proof.
  destruct (exec (world online)
              (fetch (__init__ None) (PyStr "cs.example.org") (PyInt 27015)) 1000)
    as [[r tr] w] eqn:Hexec.
  pose proof (exec_runs _ _ _ _ _ _ Hexec) as Hrun.
  vm_compute in Hexec. injection Hexec as <- <- <-.
  eexists _, _. split; [reflexivity |]. split; [reflexivity |].
  split; [reflexivity |].
  destruct (fetch_call_budget _ _ _ _ _ 5 0 42 Hrun) as (_ & _ & _ & _ & Hel);
    [lia | lia | lia | repeat constructor; vm_compute; discriminate | exact Hel].
Defined.

(** ** What a batch can cost *)

Lemma per_address_budget self servers per (L C T : Z) :
  per_address self servers per ->
  0 <= L -> 0 <= C -> 0 <= T ->
  Forall (step_within L C T) (concat per.*1) ->
  (length (concat per.*1) <= 5 * length servers)%nat /\
  (count_steps is_query (concat per.*1) <= 2 * length servers)%nat /\
  elapsed (concat per.*1) <= Z.of_nat (length servers) * (L + 2 * C + 2 * T).
Proof.
  intros Hper HL HC HT. induction Hper as [| [host port] [tr1 r1] servers per H1 _ IH].
  - intros _. unfold count_steps. simpl. repeat split; lia.
  - change (((tr1, r1) :: per).*1) with (tr1 :: per.*1).
    change (concat (tr1 :: per.*1)) with (tr1 ++ concat per.*1).
    intros Hw. apply Forall_app in Hw as [Hw1 Hw2].
    destruct (IH Hw2) as (Hlen & Hq & Hel). cbn [fst snd] in H1.
    destruct (fetch_cost _ _ _ _ _ L C T H1 HL HC HT Hw1)
      as (Hlen1 & _ & Hq1 & _ & _ & Hel1).
    unfold count_steps in *.
    rewrite length_app, List.filter_app, length_app, elapsed_app.
    change (length ((host, port) :: servers)) with (S (length servers)).
    rewrite Nat2Z.inj_succ, Z.mul_succ_l. unfold trace in *. repeat split; lia.
Qed.

(** X3. A batch over [N] addresses makes at most [5 N] calls, at most
    [2 N] of them queries; with the bounds [L], [C] and [T] on a lookup,
    a clock reading and a query it takes at most [N (L + 2 C + 2 T)] ms.
    In particular a batch over no address makes no call. *)
Theorem batch_call_budget self servers tr out (L C T : Z) :
  runs (fetch_multiple self servers) tr out ->
  0 <= L -> 0 <= C -> 0 <= T ->
  Forall (step_within L C T) tr ->
  (length tr <= 5 * length servers)%nat /\
  (count_steps is_query tr <= 2 * length servers)%nat /\
  elapsed tr <= Z.of_nat (length servers) * (L + 2 * C + 2 * T) /\
  (servers = [] -> tr = [] /\ out = Returned ∅).
Proof.
  intros Hrun HL HC HT Hw.
  apply fetch_multiple_from_runs in Hrun
    as (done & rest & per & -> & _ & Hper & -> & Hout).
  destruct (per_address_budget _ _ _ L C T Hper HL HC HT Hw) as (H1 & H2 & H3).
  rewrite length_app, Nat2Z.inj_add.
  split; [lia |]. split; [lia |]. split; [nia |].
  intros Hnil. apply app_eq_nil in Hnil as [-> ->].
  simpl in Hout. inversion Hper; subst. split; reflexivity.
Qed.

Lemma batch_call_budget_witness :
  exists tr out,
    exec (world offline) (fetch_multiple (__init__ (Some one_second)) three_servers) 0
      = (out, tr, 3000) /\
    (length tr <= 5 * 3)%nat /\
    elapsed tr <= 3 * (0 + 2 * 0 + 2 * 1000).
Proof.
  destruct (exec (world offline)
              (fetch_multiple (__init__ (Some one_second)) three_servers) 0)
    as [[out tr] w] eqn:Hexec.
  pose proof (exec_runs _ _ _ _ _ _ Hexec) as Hrun.
  calls_of Hexec.
  eexists _, _. split; [reflexivity |].
  destruct (batch_call_budget _ _ _ _ 0 0 1000 Hrun) as (H1 & _ & H3 & _);
    [lia | lia | lia | repeat constructor; vm_compute; discriminate |].
  split; [exact H1 | exact H3].
Defined.

(** ** Every entry of a batch *)






(** ** When two requests share a key *)










(** ** More about the timeout floor *)

(** X6. A timeout that is at least 0.5 is stored exactly as given; one
    that is below 0.5, zero and negative values included, is stored as
    exactly 0.5. Making a fetcher from the stored timeout of a fetcher
    gives the same fetcher. *)
Theorem timeout_floor_is_exact (t : float) :
  (PyFloat.leb PyFloat.half t = true -> timeout (__init__ (Some t)) = t) /\
  (PyFloat.ltb t PyFloat.half = true -> timeout (__init__ (Some t)) = PyFloat.half) /\
  __init__ (Some (timeout (__init__ (Some t)))) = __init__ (Some t) /\
  create_fetcher (Some (timeout (create_fetcher (Some t)))) = create_fetcher (Some t).
Proof.
  assert (Hidem : __init__ (Some (timeout (__init__ (Some t)))) = __init__ (Some t)).
  { unfold __init__. simpl. f_equal. unfold PyFloat.max.
    destruct (PyFloat.ltb t PyFloat.half) eqn:Hlt.
    - reflexivity.
    - rewrite Hlt. reflexivity. }
  split; [| split; [| split; [exact Hidem | exact Hidem]]].
  - change (timeout (__init__ (Some t))) with (PyFloat.max t PyFloat.half).
    unfold PyFloat.max, PyFloat.leb, PyFloat.ltb, SFleb, SFltb.
    intros H. destruct (SFcompare PyFloat.half t) as [c |] eqn:Hc; [| discriminate H].
    apply SFcompare_swap in Hc. rewrite Hc.
    destruct c; try reflexivity. discriminate H.
  - change (timeout (__init__ (Some t))) with (PyFloat.max t PyFloat.half).
    unfold PyFloat.max. intros ->. reflexivity.
Qed.

Lemma timeout_floor_is_exact_witness :
  timeout (__init__ (Some one_second)) = one_second /\
  timeout (__init__ (Some (PyFloat.of_Z (-2)))) = PyFloat.half.
Proof.
  split.
  - apply (timeout_floor_is_exact one_second). reflexivity.
  - apply (timeout_floor_is_exact (PyFloat.of_Z (-2))). reflexivity.
Defined.

(** ** The query helper of the web layer *)

Lemma query_cs_server_except_returns e :
  server.query_cs_server_except e = Returned (failure (helper_message e)).
Proof. destruct e as [[] msg]; reflexivity. Qed.

Lemma query_cs_server_runs ip port timeout tr r :
  runs (server.query_cs_server ip port timeout) tr r <->
  exists r0,
    runs (server.query_cs_server_try ip port (default (PyFloat.of_Z 3) timeout)) tr r0 /\
    r = match r0 with
        | Returned d => Returned d
        | Raised e => server.query_cs_server_except e
        end.
Proof.
  unfold server.query_cs_server, mbind, prog_bind. rewrite runs_bind. split.
  - intros (tr1 & r0 & tr2 & -> & H1 & H2). exists r0.
    destruct r0 as [e | d]; simpl in H2; destruct H2 as [-> ->];
      rewrite app_nil_r; auto.
  - intros (r0 & H & ->). exists tr, r0, []. rewrite app_nil_r.
    destruct r0; simpl; auto.
Qed.

(** Every execution of the [try] block is of one of two shapes. *)
Lemma query_cs_server_try_cases ip port t tr r0 :
  runs (server.query_cs_server_try ip port t) tr r0 <->
  (exists t0 d2 e d3,
      tr = [Step time_time t0 d2; Step (a2s_info (ip, port) t) (Raised e) d3] /\
      r0 = Raised e) \/
  (exists t0 d2 info d3 t1 d4 pr d5,
      tr = [Step time_time t0 d2;
            Step (a2s_info (ip, port) t) (Returned info) d3;
            Step time_time t1 d4;
            Step (a2s_players (ip, port) t) pr d5] /\
      r0 = Returned (success_result info t0 t1 (reported_players pr))).
Proof.
  unfold server.query_cs_server_try, try_bind, mbind, prog_bind. simpl. split.
  - intros (t0 & d2 & ta & -> & x & d3 & tb & -> & H).
    destruct x as [e | info]; simpl in H.
    + destruct H as [-> ->]. left. exists t0, d2, e, d3. auto.
    + destruct H as (t1 & d4 & tc & -> & pr & d5 & td & -> & -> & ->).
      right. exists t0, d2, info, d3, t1, d4, pr, d5. split; [reflexivity |].
      destruct pr; reflexivity.
  - intros [(t0 & d2 & e & d3 & -> & ->)
           | (t0 & d2 & info & d3 & t1 & d4 & pr & d5 & -> & ->)].
    + eexists t0, d2, _. split; [reflexivity |]. eexists (Raised e), d3, _.
      split; [reflexivity |]. simpl. auto.
    + eexists t0, d2, _. split; [reflexivity |]. eexists (Returned info), d3, _.
      split; [reflexivity |]. simpl.
      eexists t1, d4, _. split; [reflexivity |]. eexists pr, d5, _.
      split; [reflexivity |]. split; [reflexivity |]. destruct pr; reflexivity.
Qed.



(** X8. [query_cs_server] never looks a host up and checks nothing: both
    queries go to the pair [(ip, port)] exactly as given, whatever the
    port, and with the timeout exactly as given, 3.0 when it is left out;
    there is no floor on it. *)
Theorem query_cs_server_passes_arguments_on ip port timeout :
  all_calls (queries_at (ip, port) (default (PyFloat.of_Z 3) timeout))
            (server.query_cs_server ip port timeout).
Proof.
  unfold server.query_cs_server, server.query_cs_server_try, try_bind, mbind, prog_bind.
  apply all_calls_bind.
  - simpl. split; [exact I |]. intros t0. split; [auto |].
    intros [e | info]; simpl; [exact I |].
    split; [exact I |]. intros t1. split; [auto |]. intros pr. exact I.
  - intros [e | d]; exact I.
Qed.

(** ** [fetch] and the query helper *)

(** X9. Once the lookup has returned [ip], what [fetch] goes on to do is
    what [query_cs_server(ip, port, self.timeout)] does: the same calls in
    the same order. Both report success or failure alike and a success
    carries the same data. The error messages can differ only if the INFO
    query raised a [ValueError], a reset connection, or a socket error
    other than a timeout or a refusal, which [fetch] tells apart and the
    helper does not. *)
Theorem fetch_is_lookup_then_query self host port s ip tr r :
  runs (fetch self host port) (s :: tr) (Returned r) ->
  resolve_answer s = Some (Returned ip) ->
  exists r',
    runs (server.query_cs_server ip port (Some (timeout self))) tr (Returned r') /\
    success r' = success r /\
    data r' = data r /\
    (error r' = error r \/
     exists s' e,
       In s' tr /\ info_answer s' = Some (Raised e) /\
       (exc_type e = ValueError \/ exc_type e = ConnectionResetError \/
        exc_type e = socket_gaierror \/ exc_type e = socket_error)).
Proof.
  intros Hrun Hs.
  apply fetch_cases in Hrun
    as [(msg & Hr & Ha & Htr & _) | [(e & d & Ha & Htr & _)
       | [(ip' & d1 & t0 & d2 & e & d3 & Ha & Htr & Hres)
       | (ip' & d1 & t0 & d2 & info & d3 & t1 & d4 & pr & d5 & Ha & Htr & Hres)]]].
  - discriminate Htr.
  - injection Htr as -> _. discriminate Hs.
  - injection Htr as -> ->. simpl in Hs. injection Hs as <-.
    injection Hres as ->.
    eexists. split.
    + apply query_cs_server_runs. exists (Raised e). split.
      * apply query_cs_server_try_cases. left. exists t0, d2, e, d3. auto.
      * symmetry. apply query_cs_server_except_returns.
    + split; [reflexivity |]. split; [reflexivity |].
      destruct e as [[] msg]; simpl; try (left; reflexivity); right;
        eexists _, _; (split; [right; left; reflexivity |]);
        (split; [reflexivity |]); simpl; auto.
  - injection Htr as -> ->. simpl in Hs. injection Hs as <-.
    injection Hres as ->.
    eexists. split.
    + apply query_cs_server_runs. exists (Returned (success_result info t0 t1 (reported_players pr))).
      split; [| reflexivity].
      apply query_cs_server_try_cases. right.
      exists t0, d2, info, d3, t1, d4, pr, d5. auto.
    + split; [reflexivity |]. split; [reflexivity |]. left. reflexivity.
Qed.

Lemma fetch_is_lookup_then_query_witness :
  exists s tr r r',
    exec (world offline) (fetch (__init__ (Some one_second)) (PyStr "192.0.2.1") (PyInt 27015)) 0
      = (Returned r, s :: tr, 1000) /\
    runs (server.query_cs_server "192.0.2.1" (PyInt 27015) (Some one_second)) tr (Returned r') /\
    success r' = success r /\ data r' = data r.
Proof.
  destruct (exec (world offline)
              (fetch (__init__ (Some one_second)) (PyStr "192.0.2.1") (PyInt 27015)) 0)
    as [[r tr] w] eqn:Hexec.
  pose proof (exec_runs _ _ _ _ _ _ Hexec) as Hrun.
  vm_compute in Hexec. injection Hexec as <- <- <-.
  destruct (fetch_is_lookup_then_query _ _ _ _ "192.0.2.1" _ _ Hrun eq_refl)
    as (r' & Hr' & Hs & Hd & _).
  eexists _, _, _, r'. split; [reflexivity |]. split; [exact Hr' |].
  split; [exact Hs | exact Hd].
Defined.

(** ** The routes of the web layer *)

(** X10. [POST /api/query-server] makes the calls of
    [query_cs_server(request.ip, request.port)] and nothing else. When
    that call reports success, which is when the INFO query returned, the
    route answers with the ["data"] of its dictionary. In every other
    case, which is when the INFO query raised, the route raises
    [HTTPException] with status 400 and the ["error"] of the dictionary as
    detail; it raises nothing else. *)
Theorem query_server_route {W : Type} (h : env W) (w : W) request :
  exists result tr w',
    exec h (server.query_cs_server (server.ip request)
                                   (PyInt (server.port request)) None) w
    = (Returned result, tr, w') /\
    ((exists d s info,
         success result = true /\ data result = Some d /\
         In s tr /\ info_answer s = Some (Returned info) /\
         exec h (server.query_server request) w = (server.Respond d, tr, w')) \/
     (exists detail s e,
         success result = false /\ error result = Some detail /\
         In s tr /\ info_answer s = Some (Raised e) /\
         detail = helper_message e /\
         exec h (server.query_server request) w
         = (server.Raise (server.HTTPException 400 detail), tr, w'))).
Proof.
  assert (Hroute : exec h (server.query_server request) w
                   = let '(r, tr, w') :=
                       exec h (server.query_cs_server (server.ip request)
                                 (PyInt (server.port request)) None) w in
                     (match r with
                      | Raised e => server.Raise (server.Error e)
                      | Returned result =>
                          if negb (success result) then
                            match server.get_error result with
                            | Returned detail =>
                                server.Raise (server.HTTPException 400 detail)
                            | Raised e => server.Raise (server.Error e)
                            end
                          else
                            match server.get_data result with
                            | Returned d => server.Respond d
                            | Raised e => server.Raise (server.Error e)
                            end
                      end, tr, w')).
  { unfold server.query_server, mbind, prog_bind. rewrite exec_bind.
    destruct (exec h (server.query_cs_server (server.ip request)
                        (PyInt (server.port request)) None) w) as [[r tr] w'].
    destruct r as [e | result]; simpl; [rewrite app_nil_r; reflexivity |].
    destruct (negb (success result)).
    - destruct (server.get_error result); simpl; rewrite app_nil_r; reflexivity.
    - destruct (server.get_data result); simpl; rewrite app_nil_r; reflexivity. }
  destruct (exec h (server.query_cs_server (server.ip request)
                      (PyInt (server.port request)) None) w)
    as [[r tr] w'] eqn:Hexec.
  apply exec_runs, query_cs_server_runs in Hexec as (r0 & Htry & ->).
  apply query_cs_server_try_cases in Htry
    as [(t0 & d2 & e & d3 & -> & ->)
       | (t0 & d2 & info & d3 & t1 & d4 & pr & d5 & -> & ->)].
  - rewrite query_cs_server_except_returns in Hroute |- *.
    eexists _, _, w'. split; [reflexivity |].
    right. eexists _, _, e. split; [reflexivity |]. split; [reflexivity |].
    split; [right; left; reflexivity |]. split; [reflexivity |].
    split; [reflexivity | exact Hroute].
  - eexists _, _, w'. split; [reflexivity |].
    left. eexists _, _, info. split; [reflexivity |]. split; [reflexivity |].
    split; [right; left; reflexivity |]. split; [reflexivity | exact Hroute].
Qed.

(** *** Choosing the fields to show *)

Lemma filter_loop_lookup (data : gmap string server.field_value)
    (items : list (string * bool)) (acc : gmap string server.field_value) (f : string) :
  foldl (fun filtered_data (item : string * bool) =>
           if item.2 then
             match data !! item.1 with
             | Some v => <[item.1 := v]> filtered_data
             | None => filtered_data
             end
           else filtered_data) acc items !! f
  = if decide ((f, true) ∈ items /\ is_Some (data !! f)) then data !! f else acc !! f.
Proof.
  revert acc. induction items as [| [k b] items IH]; intros acc; cbn [foldl fst snd].
  - case_decide as Hd; [| reflexivity].
    destruct Hd as [Hin _]. apply elem_of_nil in Hin. destruct Hin.
  - rewrite IH. clear IH.
    destruct (decide ((f, true) ∈ items /\ is_Some (data !! f))) as [[Hin Hd] | Hno].
    + rewrite decide_True; [reflexivity |]. split; [right; exact Hin | exact Hd].
    + destruct (decide ((f, true) ∈ (k, b) :: items /\ is_Some (data !! f)))
        as [[Hin Hd] | Hno'].
      * apply elem_of_cons in Hin as [[= <- <-] | Hin]; [| exfalso; apply Hno; auto].
        destruct Hd as [v Hv]. rewrite Hv. apply lookup_insert_eq.
      * destruct b; [| reflexivity].
        destruct (data !! k) as [v |] eqn:Hk; [| reflexivity].
        apply lookup_insert_ne. intros ->. apply Hno'.
        split; [left | rewrite Hk; eauto].
Qed.

Lemma filter_fields_lookup (enabled : gmap string bool)
    (data : gmap string server.field_value) (f : string) :
  server.filter_fields enabled data !! f
  = match enabled !! f with
    | Some true => data !! f
    | _ => None
    end.
Proof.
  unfold server.filter_fields. rewrite filter_loop_lookup, lookup_empty.
  case_decide as Hno.
  - destruct Hno as [Hin Hd].
    apply elem_of_map_to_list in Hin. rewrite Hin. reflexivity.
  - destruct (enabled !! f) as [[] |] eqn:He; try reflexivity.
    destruct (data !! f) as [v |] eqn:Hv; [| reflexivity].
    exfalso. apply Hno. split; [apply elem_of_map_to_list, He | rewrite ?Hv; eauto].
Qed.

Section Store.

Variable datetime : Type.
Variable isoformat : datetime -> string.
Variable fromisoformat : string -> outcome datetime.

Implicit Types (collection : list (server.document datetime)) (id : string).

Lemma find_one_none collection id :
  Forall (fun doc => server.doc_config_id doc <> id) collection ->
  server.find_one collection id = None.
Proof.
  unfold server.find_one. induction 1 as [| doc collection Hne _ IH]; simpl.
  - reflexivity.
  - apply String.eqb_neq in Hne. rewrite Hne. exact IH.
Qed.

Lemma find_one_insert collection doc id :
  server.find_one (server.insert_one collection doc) id
  = match server.find_one collection id with
    | Some found => Some found
    | None => if String.eqb (server.doc_config_id doc) id then Some doc else None
    end.
Proof.
  unfold server.find_one, server.insert_one.
  induction collection as [| doc0 collection IH]; simpl.
  - reflexivity.
  - destruct (String.eqb (server.doc_config_id doc0) id); [reflexivity | exact IH].
Qed.

(** X11. For a stored configuration, [GET /api/server-status/{id}] makes
    the calls of [query_cs_server] on the stored address. If the query
    failed the route still answers, with the failure and its message and
    no data. If it succeeded, a field is in the answer exactly when the
    configuration enables it and the query data has it, with the value of
    the query data; fields that are disabled or not listed never appear.
    The answer also carries the five display settings of the
    configuration. *)
Theorem server_status_shows_enabled_fields collection id config tr rep :
  server.find_one collection id = Some config ->
  runs (server.get_server_status collection id) tr rep ->
  exists result,
    runs (server.query_cs_server (server.server_ip (server.doc_fields config))
            (PyInt (server.server_port (server.doc_fields config))) None)
         tr (Returned result) /\
    ((exists msg,
         success result = false /\ error result = Some msg /\
         rep = server.Respond
                 {| server.status_success := false; server.status_data := None;
                    server.status_error := Some msg;
                    server.status_config := None |}) \/
     (exists d shown,
         success result = true /\ data result = Some d /\
         rep = server.Respond
                 {| server.status_success := true;
                    server.status_data := Some shown;
                    server.status_error := None;
                    server.status_config := Some
                      {| server.style_theme := server.theme (server.doc_fields config);
                         server.style_accent_color :=
                           server.accent_color (server.doc_fields config);
                         server.style_font_family :=
                           server.font_family (server.doc_fields config);
                         server.style_dark_mode :=
                           server.dark_mode (server.doc_fields config);
                         server.style_refresh_interval :=
                           server.refresh_interval (server.doc_fields config) |} |} /\
         forall f,
           shown !! f
           = match server.enabled_fields (server.doc_fields config) !! f with
             | Some true => server.data_dict d !! f
             | _ => None
             end)).
Proof.
  intros Hfind Hrun. unfold server.get_server_status in Hrun. rewrite Hfind in Hrun.
  unfold mbind, prog_bind in Hrun.
  apply runs_bind in Hrun as (tr1 & r & tr2 & -> & H1 & H2).
  pose proof H1 as Hq.
  apply query_cs_server_runs in H1 as (r0 & Htry & ->).
  apply query_cs_server_try_cases in Htry
    as [(t0 & d2 & e & d3 & -> & ->)
       | (t0 & d2 & info & d3 & t1 & d4 & pr & d5 & -> & ->)].
  - rewrite query_cs_server_except_returns in H2, Hq. simpl in H2.
    destruct H2 as [-> ->]. rewrite app_nil_r.
    eexists. split; [exact Hq |]. left. eexists. repeat split.
  - simpl in H2. destruct H2 as [-> ->]. rewrite app_nil_r.
    eexists. split; [exact Hq |]. right. eexists _, _.
    split; [reflexivity |]. split; [reflexivity |]. split; [reflexivity |].
    intros f. apply filter_fields_lookup.
Qed.

(** X12. For an identifier that no stored configuration has, the empty
    collection included, [GET /api/config/{id}] and
    [GET /api/server-status/{id}] raise [HTTPException] with status 404,
    and the status route does so without querying any server. *)
Theorem unknown_configuration_is_404 collection id :
  Forall (fun doc => server.doc_config_id doc <> id) collection ->
  server.get_config fromisoformat collection id
  = server.Raise (server.HTTPException 404 "Configuration not found") /\
  server.get_server_status collection id
  = Ret (server.Raise (server.HTTPException 404 "Configuration not found")).
Proof.
  intros H. apply find_one_none in H.
  unfold server.get_config, server.get_server_status. rewrite H. auto.
Qed.

(** X13. Saving returns the submitted fields unchanged under the new
    identifier and stores them. If no stored configuration already has
    that identifier, reading it back from the new collection gives the
    same identifier and the same fields, with the creation time written as
    text and read back; and the status route for it queries the submitted
    server address. *)
Theorem saved_configuration_reads_back collection new_id now config :
  Forall (fun doc => server.doc_config_id doc <> new_id) collection ->
  let saved := server.save_config isoformat collection new_id now config in
  saved.2 = {| server.config_id := new_id; server.fields := config;
               server.created_at := now |} /\
  length saved.1 = S (length collection) /\
  server.get_config fromisoformat saved.1 new_id
  = match fromisoformat (isoformat now) with
    | Returned d =>
        server.Respond {| server.config_id := new_id; server.fields := config;
                          server.created_at := d |}
    | Raised e => server.Raise (server.Error e)
    end /\
  exists doc,
    server.find_one saved.1 new_id = Some doc /\
    server.doc_fields doc = config.
Proof.
  intros Hfresh saved. apply find_one_none in Hfresh.
  assert (Hfind : server.find_one saved.1 new_id
                  = Some {| server.doc_config_id := new_id; server.doc_fields := config;
                            server.doc_created_at := server.IsoText (isoformat now) |}).
  { unfold saved, server.save_config. simpl.
    rewrite find_one_insert, Hfresh. simpl. rewrite String.eqb_refl. reflexivity. }
  split; [reflexivity |]. split.
  - unfold saved, server.save_config, server.insert_one. simpl.
    rewrite length_app. simpl. lia.
  - split.
    + unfold server.get_config. rewrite Hfind. simpl.
      destruct (fromisoformat (isoformat now)); reflexivity.
    + eexists. split; [exact Hfind | reflexivity].
Qed.

(** X14. Saving a configuration changes nothing for the others: for every
    identifier other than the new one, both routes answer from the new
    collection as they did from the old one. *)
Theorem saving_leaves_other_configurations collection new_id now config id :
  id <> new_id ->
  let saved := server.save_config isoformat collection new_id now config in
  server.find_one saved.1 id = server.find_one collection id /\
  server.get_config fromisoformat saved.1 id
  = server.get_config fromisoformat collection id /\
  server.get_server_status saved.1 id = server.get_server_status collection id.
Proof.
  intros Hne saved.
  assert (Hfind : server.find_one saved.1 id = server.find_one collection id).
  { unfold saved, server.save_config. simpl. rewrite find_one_insert. simpl.
    destruct (server.find_one collection id); [reflexivity |].
    assert (Hn : String.eqb new_id id = false)
      by (apply String.eqb_neq; congruence).
    rewrite Hn. reflexivity. }
  split; [exact Hfind |].
  unfold server.get_config, server.get_server_status. rewrite Hfind. auto.
Qed.

End Store.

Lemma server_status_shows_enabled_fields_witness :
  exists tr rep result,
    exec (world online) (server.get_server_status server.sample_collection "w1") 0
      = (rep, tr, 82) /\
    runs (server.query_cs_server "203.0.113.5" (PyInt 27015) None) tr (Returned result).
Proof.
  destruct (exec (world online)
              (server.get_server_status server.sample_collection "w1") 0)
    as [[rep tr] w] eqn:Hexec.
  pose proof (exec_runs _ _ _ _ _ _ Hexec) as Hrun.
  destruct (server_status_shows_enabled_fields Z server.sample_collection "w1"
              _ tr rep eq_refl Hrun) as (result & Hq & _).
  exists tr, rep, result. split; [| exact Hq].
  vm_compute in Hexec. injection Hexec as _ _ <-. reflexivity.
Defined.

Lemma unknown_configuration_is_404_witness :
  server.get_config server.sample_fromisoformat server.sample_collection "w2"
  = server.Raise (server.HTTPException 404 "Configuration not found") /\
  server.get_server_status server.sample_collection "w2"
  = Ret (server.Raise (server.HTTPException 404 "Configuration not found")).
Proof.
  apply (unknown_configuration_is_404 Z server.sample_fromisoformat
           server.sample_collection "w2").
  repeat constructor. discriminate.
Defined.

Lemma saved_configuration_reads_back_witness :
  server.get_config server.sample_fromisoformat
    (server.save_config server.sample_isoformat server.sample_collection "w2"
       1700000100 server.sample_config).1 "w2"
  = server.Respond {| server.config_id := "w2"; server.fields := server.sample_config;
                      server.created_at := 1700000100 |}.
Proof.
  destruct (saved_configuration_reads_back Z server.sample_isoformat
              server.sample_fromisoformat server.sample_collection "w2"
              1700000100 server.sample_config) as (_ & _ & Hget & _).
  - repeat constructor. discriminate.
  - exact Hget.
Defined.

Lemma saving_leaves_other_configurations_witness :
  server.find_one
    (server.save_config server.sample_isoformat server.sample_collection "w2"
       1700000100 server.sample_config).1 "w1"
  = server.find_one server.sample_collection "w1".
Proof.
  apply (saving_leaves_other_configurations Z server.sample_isoformat
           server.sample_fromisoformat server.sample_collection "w2"
           1700000100 server.sample_config "w1").
  discriminate.
Defined.

(** ** Splitting a batch *)

Lemma batch_results_union (entries : list (string * fetch_result))
    (results : gmap string fetch_result) :
  batch_results entries results = batch_results entries ∅ ∪ results.
Proof.
  revert results. induction entries as [| [k v] entries IH]; intros results.
  - unfold batch_results. simpl. rewrite (left_id_L ∅ (∪)). reflexivity.
  - unfold batch_results in *. simpl.
    rewrite (IH (<[k:=v]> results)), (IH (<[k:=v]> ∅)).
    rewrite insert_union_singleton_l, (insert_union_singleton_l ∅).
    rewrite (right_id_L ∅ (∪)), (assoc_L (∪)). reflexivity.
Qed.

(** The loop over [l1 ++ l2] is the loop over [l1] and then, if that
    returned, the loop over [l2] from the dictionary it returned. *)
Lemma fetch_multiple_from_app self l1 l2 results tr out :
  runs (fetch_multiple_from self (l1 ++ l2) results) tr out <->
  (exists e, runs (fetch_multiple_from self l1 results) tr (Raised e) /\ out = Raised e) \/
  (exists tr1 res1 tr2,
      runs (fetch_multiple_from self l1 results) tr1 (Returned res1) /\
      runs (fetch_multiple_from self l2 res1) tr2 out /\
      tr = tr1 ++ tr2).
Proof.
  revert results tr. induction l1 as [| [host port] l1 IH]; intros results tr.
  - simpl. split.
    + intros H. right. exists [], results, tr. auto.
    + intros [(e & [_ H] & _) | (tr1 & res1 & tr2 & [-> Heq] & H & ->)];
        [discriminate H |].
      injection Heq as <-. exact H.
  - cbn [app fetch_multiple_from]. split.
    + intros H.
      apply try_bind_runs in H as [(e & H & ->) | (tr0 & key & tr' & -> & H0 & H1)].
      { left. exists e. split; [| reflexivity].
        apply try_bind_runs. left. exists e. auto. }
      apply try_bind_runs in H1 as [(e & H & ->) | (tr1 & r & tr2 & -> & H2 & H3)].
      { left. exists e. split; [| reflexivity].
        apply try_bind_runs. right. exists tr0, key, tr'.
        split; [reflexivity |]. split; [exact H0 |].
        apply try_bind_runs. left. exists e. auto. }
      apply IH in H3 as [(e & H3 & ->) | (ta & res1 & tb & H3 & H4 & ->)].
      { left. exists e. split; [| reflexivity].
        apply try_bind_runs. right. exists tr0, key, (tr1 ++ tr2).
        split; [reflexivity |]. split; [exact H0 |].
        apply try_bind_runs. right. exists tr1, r, tr2. auto. }
      right. exists (tr0 ++ tr1 ++ ta), res1, tb.
      split; [| split; [exact H4 |]].
      * apply try_bind_runs. right. exists tr0, key, (tr1 ++ ta).
        split; [reflexivity |]. split; [exact H0 |].
        apply try_bind_runs. right. exists tr1, r, ta. auto.
      * rewrite <- !app_assoc. reflexivity.
    + intros [(e & H & ->) | (ta & res1 & tb & H & H4 & ->)].
      * apply try_bind_runs in H as [(e' & H & [= <-]) | (tr0 & key & tr' & -> & H0 & H1)].
        { apply try_bind_runs. left. exists e. auto. }
        apply try_bind_runs. right. exists tr0, key, tr'.
        split; [reflexivity |]. split; [exact H0 |].
        apply try_bind_runs in H1 as [(e' & H & [= <-]) | (tr1 & r & tr2 & -> & H2 & H3)].
        { apply try_bind_runs. left. exists e. auto. }
        apply try_bind_runs. right. exists tr1, r, tr2.
        split; [reflexivity |]. split; [exact H2 |].
        apply IH. left. exists e. auto.
      * apply try_bind_runs in H as [(e' & _ & [=]) | (tr0 & key & tr' & -> & H0 & H1)].
        apply try_bind_runs in H1 as [(e' & _ & [=]) | (tr1 & r & tr2 & -> & H2 & H3)].
        apply try_bind_runs. right. exists tr0, key, (tr1 ++ tr2 ++ tb).
        split; [rewrite <- !app_assoc; reflexivity |]. split; [exact H0 |].
        apply try_bind_runs. right. exists tr1, r, (tr2 ++ tb).
        split; [reflexivity |]. split; [exact H2 |].
        apply IH. right. exists tr2, res1, tb. auto.
Qed.

(** The dictionary the loop starts from changes neither the calls nor
    whether the loop raises; the entries of the loop are merged over it. *)
Lemma fetch_multiple_from_returned_any self servers results tr x :
  runs (fetch_multiple_from self servers results) tr (Returned x) <->
  exists y,
    runs (fetch_multiple_from self servers ∅) tr (Returned y) /\ x = y ∪ results.
Proof.
  split.
  - intros H. apply fetch_multiple_from_returned in H as (Hall & per & Hper & -> & ->).
    eexists. split; [apply (fetch_multiple_from_runs_inv _ _ _ _ Hall Hper) |].
    apply batch_results_union.
  - intros (y & H & ->).
    apply fetch_multiple_from_returned in H as (Hall & per & Hper & -> & ->).
    rewrite <- batch_results_union.
    apply (fetch_multiple_from_runs_inv _ _ _ _ Hall Hper).
Qed.

Lemma fetch_multiple_from_raised_any self servers results results' tr e :
  runs (fetch_multiple_from self servers results) tr (Raised e) ->
  runs (fetch_multiple_from self servers results') tr (Raised e).
Proof.
  intros H.
  apply fetch_multiple_from_runs in H as (done & rest & per & -> & Hdone & Hper & -> & Hout).
  destruct rest as [| sv rest]; [discriminate Hout |].
  destruct Hout as [Hno [= ->]].
  apply (fetch_multiple_from_raises_inv _ _ _ _ _ _ Hdone Hper Hno).
Qed.

(** X15. A batch over the list [l1 ++ l2] is the batch over [l1] followed
    by the batch over [l2]. It returns a dictionary exactly when both
    return one: its calls are those of the first and then those of the
    second, and its dictionary is the two dictionaries merged, with the
    entry of the second batch where both have a key. It raises exactly
    when the first batch raises, with the same calls, or the first batch
    returns and the second raises, with the calls of both. *)
Theorem batch_splits self l1 l2 :
  (forall tr results,
     runs (fetch_multiple self (l1 ++ l2)) tr (Returned results) <->
     exists tr1 tr2 results1 results2,
       runs (fetch_multiple self l1) tr1 (Returned results1) /\
       runs (fetch_multiple self l2) tr2 (Returned results2) /\
       tr = tr1 ++ tr2 /\
       results = results2 ∪ results1) /\
  (forall tr e,
     runs (fetch_multiple self (l1 ++ l2)) tr (Raised e) <->
     runs (fetch_multiple self l1) tr (Raised e) \/
     exists tr1 tr2 results1,
       runs (fetch_multiple self l1) tr1 (Returned results1) /\
       runs (fetch_multiple self l2) tr2 (Raised e) /\
       tr = tr1 ++ tr2).
Proof.
  unfold fetch_multiple. split.
  - intros tr results. rewrite fetch_multiple_from_app. split.
    + intros [(e & _ & [=]) | (tr1 & res1 & tr2 & H1 & H2 & ->)].
      apply fetch_multiple_from_returned_any in H2 as (y & H2 & ->).
      exists tr1, tr2, res1, y. auto.
    + intros (tr1 & tr2 & results1 & results2 & H1 & H2 & -> & ->).
      right. exists tr1, results1, tr2. split; [exact H1 |]. split; [| reflexivity].
      apply fetch_multiple_from_returned_any. exists results2. auto.
  - intros tr e. rewrite fetch_multiple_from_app. split.
    + intros [(e' & H & [= <-]) | (tr1 & res1 & tr2 & H1 & H2 & ->)].
      * left. exact H.
      * right. exists tr1, tr2, res1. split; [exact H1 |]. split; [| reflexivity].
        exact (fetch_multiple_from_raised_any _ _ _ ∅ _ _ H2).
    + intros [H | (tr1 & tr2 & results1 & H1 & H2 & ->)].
      * left. exists e. auto.
      * right. exists tr1, results1, tr2. split; [exact H1 |]. split; [| reflexivity].
        exact (fetch_multiple_from_raised_any _ _ _ results1 _ _ H2).
Qed.
